(** * Visa Genius X: the deterministic validation-and-scoring engine

    A shallow embedding of [server.mjs] (document validation, score
    aggregation, risk buckets, country comparison and the
    [/api/analyze] handler that composes them), with the properties of
    its specification stated and proved over the embedding.  The
    helpers of the front end ([App.jsx]) and the handler of the
    generative pathway ([server/index.js]) follow, with further
    properties of the three files.

    Modelling conventions.
    - JavaScript strings are byte strings ([string]); the literals of
      the source are kept verbatim (UTF-8).  Character-level operations
      ([toLowerCase], white space skipped by [parseInt]) act on the
      ASCII range and leave other bytes alone.
    - Scores are integers ([Z]): every number that reaches an
      arithmetic operation of the source is an integer literal or a sum
      of such.  The one number that need not be an integer is the
      result of [parseInt], which may be [NaN]; it is an [option Z].
    - [file.size / 1024] is a division of numbers, not of integers: it
      is carried out in [Q]. *)

From Stdlib Require Import ZArith QArith Qminmax Qround Lqa.
From Stdlib Require Import Ascii String DecimalString DecimalPos List Lia.
From stdpp Require Import base option list gmap strings.

Local Open Scope string_scope.
Local Open Scope Z_scope.

(** ** Strings *)

Module JsString.

(** [c] is one of the letters [A]..[Z]. *)
Definition is_upper (c : ascii) : bool :=
  let n := nat_of_ascii c in ((65 <=? n) && (n <=? 90))%nat.

Definition lower_char (c : ascii) : ascii :=
  if is_upper c then ascii_of_nat (nat_of_ascii c + 32) else c.

(** [String.prototype.toLowerCase]. *)
Fixpoint toLowerCase (s : string) : string :=
  match s with
  | EmptyString => EmptyString
  | String c r => String (lower_char c) (toLowerCase r)
  end.

(** [s.slice(from, to)] for [0 <= from <= to <= s.length]. *)
Definition slice (s : string) (from to : Z) : string :=
  substring (Z.to_nat from) (Z.to_nat (to - from)) s.

End JsString.

(** ** Node's [path.extname] (POSIX flavour)

    The source calls the runtime's [path.extname]; this is the loop of
    Node's [lib/path.js], scanning the path from its last character
    down to the first, with the state it keeps. *)

Module path.

Record scan_state := ScanState {
  startDot : Z;
  startPart : Z;
  end_ : Z;
  matchedSlash : bool;
  preDotState : Z
}.

Definition init : scan_state :=
  {| startDot := -1; startPart := 0; end_ := -1;
     matchedSlash := true; preDotState := 0 |}.

Definition CHAR_FORWARD_SLASH : ascii := "/"%char.
Definition CHAR_DOT : ascii := "."%char.

(** One character that is not a path separator, at index [i]. *)
Definition visit (code : ascii) (i : Z) (s : scan_state) : scan_state :=
  let s :=
    if end_ s =? -1
    then {| startDot := startDot s; startPart := startPart s; end_ := i + 1;
            matchedSlash := false; preDotState := preDotState s |}
    else s in
  if Ascii.eqb code CHAR_DOT then
    if startDot s =? -1
    then {| startDot := i; startPart := startPart s; end_ := end_ s;
            matchedSlash := matchedSlash s; preDotState := preDotState s |}
    else if negb (preDotState s =? 1)
    then {| startDot := startDot s; startPart := startPart s; end_ := end_ s;
            matchedSlash := matchedSlash s; preDotState := 1 |}
    else s
  else if negb (startDot s =? -1)
  then {| startDot := startDot s; startPart := startPart s; end_ := end_ s;
          matchedSlash := matchedSlash s; preDotState := -1 |}
  else s.

(** [for (let i = path.length - 1; i >= 0; --i)]: [codes] are the
    characters at indices [i], [i-1], ..., [0]. *)
Fixpoint scan (codes : list ascii) (i : Z) (s : scan_state) : scan_state :=
  match codes with
  | [] => s
  | code :: rest =>
      if Ascii.eqb code CHAR_FORWARD_SLASH then
        if negb (matchedSlash s)
        then {| startDot := startDot s; startPart := i + 1; end_ := end_ s;
                matchedSlash := matchedSlash s; preDotState := preDotState s |}
        else scan rest (i - 1) s
      else scan rest (i - 1) (visit code i s)
  end.

Definition extname (p : string) : string :=
  let s := scan (rev (list_ascii_of_string p))
                (Z.of_nat (String.length p) - 1) init in
  if (startDot s =? -1) || (end_ s =? -1) || (preDotState s =? 0)
     || ((preDotState s =? 1) && (startDot s =? end_ s - 1)
         && (startDot s =? startPart s + 1))
  then ""
  else JsString.slice p (startDot s) (end_ s).

End path.

(** ** JavaScript values

    The values a property of the parsed profile can hold.  A JSON
    number is an integer here, of magnitude below 10^21, so that
    [ToString] writes it as a decimal numeral; an array or an object
    is kept as the string [ToString] makes of it, which is all the
    code can observe of it. *)

Inductive jsval :=
| VUndefined
| VNull
| VBool (b : bool)
| VNum (n : Z)
| VStr (s : string)
| VObj (str : string).

#[global] Instance jsval_eq_dec : EqDecision jsval.
Proof. solve_decision. Defined.

Module Js.

Definition ToBoolean (v : jsval) : bool :=
  match v with
  | VUndefined | VNull => false
  | VBool b => b
  | VNum n => negb (n =? 0)
  | VStr s => negb (String.eqb s "")
  | VObj _ => true
  end.

Definition ToString (v : jsval) : string :=
  match v with
  | VUndefined => "undefined"
  | VNull => "null"
  | VBool true => "true"
  | VBool false => "false"
  | VNum n => DecimalString.NilZero.string_of_int (Z.to_int n)
  | VStr s => s
  | VObj str => str
  end.

(** [a || b] *)
Definition or (a b : jsval) : jsval := if ToBoolean a then a else b.

(** [v === 'lit'] *)
Definition strict_eq (v : jsval) (lit : string) : bool :=
  match v with
  | VStr s => String.eqb s lit
  | _ => false
  end.

(** [o.k] on an object: [undefined] when the property is absent. *)
Definition get (o : gmap string jsval) (k : string) : jsval :=
  default VUndefined (o !! k).

(** White space and line terminators of the ASCII range. *)
Definition isWhiteSpace (c : ascii) : bool :=
  let n := nat_of_ascii c in
  ((9 <=? n) && (n <=? 13) || (n =? 32))%nat.

Fixpoint trimStart (s : string) : string :=
  match s with
  | String c r => if isWhiteSpace c then trimStart r else s
  | EmptyString => s
  end.

Definition digit (c : ascii) : option Z :=
  let n := nat_of_ascii c in
  if ((48 <=? n) && (n <=? 57))%nat then Some (Z.of_nat n - 48) else None.

(** The longest prefix of decimal digits, read most significant
    first; [acc] is [None] until a digit has been seen. *)
Fixpoint digits (s : string) (acc : option Z) : option Z :=
  match s with
  | String c r =>
      match digit c with
      | Some d => digits r (Some (10 * default 0 acc + d))
      | None => acc
      end
  | EmptyString => acc
  end.

(** [parseInt(v, 10)]; [None] is [NaN].  With radix 10 no [0x]
    prefix is stripped.  The mathematical value is returned: the
    code only compares it with 150000 and 50000. *)
Definition parseInt (v : jsval) : option Z :=
  let inputString := trimStart (ToString v) in
  let '(sign, rest) :=
    match inputString with
    | String "-" r => (-1, r)
    | String "+" r => (1, r)
    | _ => (1, inputString)
    end in
  match digits rest None with
  | Some n => Some (sign * n)
  | None => None
  end.

(** [x > k] and [x < k] for a number [x] that may be [NaN]. *)
Definition gt (x : option Z) (k : Z) : bool :=
  match x with Some n => k <? n | None => false end.
Definition lt (x : option Z) (k : Z) : bool :=
  match x with Some n => n <? k | None => false end.

End Js.

(** ** Records of the source *)

(** A file as multer hands it over. *)
Record File := mkFile {
  originalname : string;
  size : Z;
  file_path : string
}.

(** What [analyzeDocument] returns. *)
Module Analysis.
Record t := mk { ok : bool; note : string; scoreImpact : Z }.
End Analysis.

(** An entry of the [docs] array of the handler. *)
Module DocResult.
Record t := mk { name : string; ok : bool; note : string; scoreImpact : Z }.

(** The entry as the object it is: its own properties. *)
Definition object (d : t) : gmap string jsval :=
  <["name" := VStr (name d)]>
    (<["ok" := VBool (ok d)]>
      (<["note" := VStr (note d)]>
        (<["scoreImpact" := VNum (scoreImpact d)]> ∅))).
End DocResult.

(** What [computeScore] returns. *)
Module ScoreInfo.
Record t := mk { score : Z; plain : string; reasons : list string }.
End ScoreInfo.

Module Twin.
Record t := mk { name : jsval; confidence : Z; traits : list string }.
End Twin.

Module Country.
Record t := mk { name : string; score : Z; flag : string; reason : string }.
End Country.

Module RiskItem.
Record t := mk { label : string; value : Z }.
End RiskItem.

(** ** [analyzeDocument] *)

Definition allowedExt : list string := [".pdf"; ".jpg"; ".jpeg"; ".png"].

(** [allowedExt.includes(ext)] *)
Definition includes (l : list string) (x : string) : bool :=
  existsb (String.eqb x) l.

(** [file.size / 1024] *)
Definition sizeKB (file : File) : Q := (inject_Z (size file) / 1024)%Q.

(** [x < y] on numbers. *)
Definition Qlt_bool (x y : Q) : bool := negb (Qle_bool y x).

Definition analyzeDocument (file : File) (type : string) : Analysis.t :=
  let ext := JsString.toLowerCase (path.extname (originalname file)) in
  if negb (includes allowedExt ext) then
    {| Analysis.ok := false;
       Analysis.note :=
         "Unsupported file type (" +:+ ext +:+ "). Please upload PDF or image.";
       Analysis.scoreImpact := -20 |}
  else if Qlt_bool (sizeKB file) 30 then
    {| Analysis.ok := false;
       Analysis.note := "File looks too small, may be corrupted or incomplete.";
       Analysis.scoreImpact := -15 |}
  else if String.eqb type "passport" then
    {| Analysis.ok := true;
       Analysis.note := "Passport file looks valid (size & type OK).";
       Analysis.scoreImpact := 15 |}
  else if String.eqb type "bank" then
    {| Analysis.ok := true;
       Analysis.note :=
         "Bank statement file looks valid. For demo we assume balance & history OK.";
       Analysis.scoreImpact := 20 |}
  else if String.eqb type "offer" then
    {| Analysis.ok := true;
       Analysis.note :=
         "Offer letter file looks valid. In production we would verify institution & dates.";
       Analysis.scoreImpact := 15 |}
  else
    {| Analysis.ok := true;
       Analysis.note := "Document uploaded successfully.";
       Analysis.scoreImpact := 5 |}.

(** ** [computeScore] *)

(** Lines 111-114: the band of the clamped score. *)
Definition plain_of (base : Z) : string :=
  let plain := "Unlikely" in
  if 75 <=? base then "Highly likely"
  else if 60 <=? base then "Likely"
  else if 45 <=? base then "Borderline"
  else plain.

(** [array.push(x)] *)
Definition push {A} (array : list A) (x : A) : list A :=
  (array ++ [x])%list.

Definition computeScore (profile : gmap string jsval)
    (docResults : list DocResult.t) : ScoreInfo.t :=
  let base := 50 in
  (* documents *)
  let base :=
    fold_left (fun base d => base + DocResult.scoreImpact d) docResults base in
  (* funds *)
  let funds := Js.parseInt (Js.or (Js.get profile "funds") (VStr "0")) in
  let base :=
    if Js.gt funds 150000 then base + 10
    else if Js.lt funds 50000 then base - 10
    else base in
  (* education *)
  let education := Js.get profile "education" in
  let base :=
    if Js.strict_eq education "Masters" || Js.strict_eq education "PhD"
    then base + 5 else base in
  (* past visa *)
  let past_visa := Js.get profile "past_visa" in
  let base := if Js.strict_eq past_visa "3+" then base + 5 else base in
  let base := if Js.strict_eq past_visa "None" then base - 5 else base in
  (* clamp 0-100 *)
  let base := Z.max 0 (Z.min 100 base) in
  let plain := plain_of base in
  let reasons : list string := [] in
  let reasons :=
    if Js.gt funds 150000 then push reasons "Strong financial capacity"
    else if Js.lt funds 50000
    then push reasons "Low declared funds – risk on finances"
    else push reasons "Funds appear moderate for stay" in
  let reasons :=
    if Js.strict_eq education "Masters" || Js.strict_eq education "PhD"
    then push reasons "Advanced education supports purpose" else reasons in
  let reasons :=
    if Js.strict_eq past_visa "3+"
    then push reasons "Good travel history – positive signal" else reasons in
  let reasons :=
    if Js.strict_eq past_visa "None"
    then push reasons "No prior visa history – neutral or slightly risky"
    else reasons in
  let reasons :=
    if existsb (fun d => negb (DocResult.ok d)) docResults
    then push reasons "One or more documents look weak or invalid"
    else reasons in
  {| ScoreInfo.score := base; ScoreInfo.plain := plain;
     ScoreInfo.reasons := reasons |}.

(** ** Helpers for the risk bars *)

Definition fundsRisk (score : Z) : Z :=
  if 80 <=? score then 20
  else if 60 <=? score then 35
  else 60.

Definition docsRisk (docs : list DocResult.t) : Z :=
  let bad :=
    Z.of_nat (length (List.filter (fun d => negb (DocResult.ok d)) docs)) in
  if bad =? 0 then 25
  else if bad =? 1 then 50
  else 70.

(** ** The request handler of [POST /api/analyze] *)

(** What [JSON.parse] returns for the profile.  Of a value that is
    neither [null] nor an object the handler can only read absent
    properties: it is the object without properties. *)
Inductive json_top :=
| JsonNull
| JsonObject (props : gmap string jsval).

(** A non-empty [req.body.profile], by what [JSON.parse] makes of it. *)
Inductive profile_text :=
| Unparsable
| Parses (j : json_top).

(** The request once multer has decoded a multipart body:
    [body_profile] is [None] when [req.body.profile] is undefined or
    the empty string; a field of [req.files] is [None] when no file
    came under that name. *)
Record Request := mkRequest {
  body_profile : option profile_text;
  files_passport : option (list File);
  files_bank : option (list File);
  files_offer : option (list File)
}.

Module AnalysisResult.
Record t := mk {
  score : Z;
  plain : string;
  reasons : list string;
  docs : list (gmap string jsval);
  twin : Twin.t;
  countries : list Country.t;
  risk : list RiskItem.t
}.
End AnalysisResult.

Inductive payload :=
| Error (error : string)
| Result (r : AnalysisResult.t).

(** [res.status(status).json(body)] *)
Record Response := mkResponse { status : Z; body : payload }.

(** *** Effects: calls made and exceptions thrown *)

Inductive event :=
| CallAnalyzeDocument (file : File) (type : string)
| CallComputeScore (docs : list DocResult.t)
| CallFundsRisk
| CallDocsRisk
| CallCleanupFiles (files : list File)
| ConsoleError.

Inductive exn := SyntaxError | TypeError.

Inductive completion (A : Type) :=
| Normal (a : A)
| Thrown (e : exn).
Arguments Normal {A} a.
Arguments Thrown {A} e.

(** A computation of the handler: the calls it made, in order, and how
    it ended. *)
Definition M (A : Type) : Type := list event * completion A.

#[global] Instance M_ret : MRet M := fun A a => ([], Normal a).
#[global] Instance M_bind : MBind M := fun A B f m =>
  match m with
  | (t, Normal a) => let '(t', r) := f a in ((t ++ t')%list, r)
  | (t, Thrown e) => (t, Thrown e)
  end.

Definition tell (e : event) : M unit := ([e], Normal tt).
Definition throw {A} (e : exn) : M A := ([], Thrown e).

(** [try { m } catch (err) { h }] *)
Definition try_catch {A} (m : M A) (h : exn -> M A) : M A :=
  match m with
  | (t, Normal a) => (t, Normal a)
  | (t, Thrown e) => let '(t', r) := h e in ((t ++ t')%list, r)
  end.

Definition JSON_parse (text : profile_text) : M json_top :=
  match text with
  | Unparsable => throw SyntaxError
  | Parses j => mret j
  end.

(** [req.files.field?.[0]] *)
Definition first_file (field : option (list File)) : option File :=
  match field with
  | Some files => head files
  | None => None
  end.

(** [({ scoreImpact, ...rest }) => rest] *)
Definition rest_of (d : DocResult.t) : gmap string jsval :=
  delete "scoreImpact" (DocResult.object d).

Definition missing_documents : string :=
  "Missing required documents. Please upload passport, bank statement, and offer letter.".

(** The object literal pushed onto [docs] after each assessment. *)
Definition doc_entry (name : string) (r : Analysis.t) : DocResult.t :=
  {| DocResult.name := name; DocResult.ok := Analysis.ok r;
     DocResult.note := Analysis.note r;
     DocResult.scoreImpact := Analysis.scoreImpact r |}.

Definition analyze (req : Request) : M Response :=
  try_catch
    (profile ← JSON_parse (default (Parses (JsonObject ∅)) (body_profile req));
     let passport := first_file (files_passport req) in
     let bank := first_file (files_bank req) in
     let offer := first_file (files_offer req) in
     (* collect all files for cleanup later *)
     let allFiles : list File := omap id [passport; bank; offer] in
     (* basic required doc checks *)
     match passport, bank, offer with
     | Some passport, Some bank, Some offer =>
         let docs : list DocResult.t := [] in
         tell (CallAnalyzeDocument passport "passport");;
         let passportRes := analyzeDocument passport "passport" in
         let docs := push docs (doc_entry "Passport" passportRes) in
         tell (CallAnalyzeDocument bank "bank");;
         let bankRes := analyzeDocument bank "bank" in
         let docs := push docs (doc_entry "Bank statement" bankRes) in
         tell (CallAnalyzeDocument offer "offer");;
         let offerRes := analyzeDocument offer "offer" in
         let docs := push docs (doc_entry "Offer letter" offerRes) in
         tell (CallComputeScore docs);;
         match profile with
         | JsonNull => throw TypeError
         | JsonObject profile =>
             let scoreInfo := computeScore profile docs in
             (* simple twin *)
             let twin :=
               {| Twin.name := Js.or (Js.get profile "name") (VStr "Applicant");
                  Twin.confidence := 80;
                  Twin.traits :=
                    [ if Js.strict_eq (Js.get profile "past_visa") "None"
                      then "Low travel history" else "Experienced traveller";
                      if 70 <=? ScoreInfo.score scoreInfo
                      then "Low risk profile" else "Medium risk profile" ] |} in
             (* dummy multi-country comparison using base score shifts *)
             let base := ScoreInfo.score scoreInfo in
             let countries :=
               [ {| Country.name := "Canada";
                    Country.score := Z.min 100 (base + 3);
                    Country.flag := "🇨🇦";
                    Country.reason := "Study funds okay; program alignment good." |};
                 {| Country.name := "UK";
                    Country.score := Z.max 0 (base - 8);
                    Country.flag := "🇬🇧";
                    Country.reason := "Needs stronger financial and document history." |};
                 {| Country.name := "Australia";
                    Country.score := Z.min 100 (base + 5);
                    Country.flag := "🇦🇺";
                    Country.reason := "Profile matches skill/education demand." |} ] in
             tell CallFundsRisk;;
             tell CallDocsRisk;;
             let risk :=
               [ {| RiskItem.label := "Finances";
                    RiskItem.value := fundsRisk (ScoreInfo.score scoreInfo) |};
                 {| RiskItem.label := "Docs"; RiskItem.value := docsRisk docs |};
                 {| RiskItem.label := "Travel History";
                    RiskItem.value :=
                      if Js.strict_eq (Js.get profile "past_visa") "None"
                      then 60 else 25 |};
                 {| RiskItem.label := "Purpose";
                    RiskItem.value :=
                      if Js.strict_eq (Js.get profile "purpose") "Study"
                         || Js.strict_eq (Js.get profile "purpose") "Work"
                      then 20 else 40 |} ] in
             tell (CallCleanupFiles allFiles);;
             mret {| status := 200;
                     body := Result
                       {| AnalysisResult.score := ScoreInfo.score scoreInfo;
                          AnalysisResult.plain := ScoreInfo.plain scoreInfo;
                          AnalysisResult.reasons := ScoreInfo.reasons scoreInfo;
                          AnalysisResult.docs := map rest_of docs;
                          AnalysisResult.twin := twin;
                          AnalysisResult.countries := countries;
                          AnalysisResult.risk := risk |} |}
         end
     | _, _, _ =>
         tell (CallCleanupFiles allFiles);;
         mret {| status := 400; body := Error missing_documents |}
     end)
    (fun err =>
       tell ConsoleError;;
       mret {| status := 500; body := Error "Internal error analyzing profile" |}).

(** ** Notions used in the statements *)

Definition low_funds : string := "Low declared funds – risk on finances".
Definition moderate_funds : string := "Funds appear moderate for stay".
Definition strong_funds : string := "Strong financial capacity".

(** The funds the aggregator works with. *)
Definition parsed_funds (profile : gmap string jsval) : option Z :=
  Js.parseInt (Js.or (Js.get profile "funds") (VStr "0")).

(** The three entries of [docs], in the order they are pushed. *)
Definition assessed (passport bank offer : File) : list DocResult.t :=
  [ doc_entry "Passport" (analyzeDocument passport "passport");
    doc_entry "Bank statement" (analyzeDocument bank "bank");
    doc_entry "Offer letter" (analyzeDocument offer "offer") ].

(** Some required slot holds no file. *)
Definition slot_missing (req : Request) : Prop :=
  first_file (files_passport req) = None
  \/ first_file (files_bank req) = None
  \/ first_file (files_offer req) = None.

(** The files that did come, in slot order. *)
Definition present_files (req : Request) : list File :=
  omap id [first_file (files_passport req); first_file (files_bank req);
           first_file (files_offer req)].

(** Unfolds the handler down to its case analysis. *)
Ltac run_handler :=
  unfold analyze, try_catch, JSON_parse, tell, throw;
  cbn [mbind mret M_bind M_ret default from_option List.app fst snd].

(** Scenario A of the specification: strong funds, a Masters degree,
    three earlier visas, and three valid files of 40 KB. *)
Definition scenario_A : Request :=
  {| body_profile :=
       Some (Parses (JsonObject
         (<["funds" := VStr "200000"]>
           (<["education" := VStr "Masters"]>
             (<["past_visa" := VStr "3+"]>
               (<["dest_country" := VStr "Canada"]> ∅))))));
     files_passport := Some [mkFile "passport.pdf" 40960 "uploads/p"];
     files_bank := Some [mkFile "bank.PDF" 40960 "uploads/b"];
     files_offer := Some [mkFile "offer.png" 40960 "uploads/o"] |}.

(** Scenario B: low funds given as a number, no earlier visa, and a
    bank statement of 10 KB. *)
Definition scenario_B : Request :=
  {| body_profile :=
       Some (Parses (JsonObject
         (<["funds" := VNum 20000]> (<["past_visa" := VStr "None"]> ∅))));
     files_passport := Some [mkFile "passport.pdf" 40960 "uploads/p"];
     files_bank := Some [mkFile "bank.pdf" 10240 "uploads/b"];
     files_offer := Some [mkFile "offer.pdf" 40960 "uploads/o"] |}.

(** A request without profile and without the bank statement. *)
Definition bank_missing : Request :=
  {| body_profile := None;
     files_passport := Some [mkFile "passport.pdf" 40960 "uploads/p"];
     files_bank := None;
     files_offer := Some [mkFile "offer.png" 40960 "uploads/o"] |}.

(** A request without any file whose profile text is not JSON. *)
Definition unparsable_without_files : Request :=
  {| body_profile := Some Unparsable; files_passport := None;
     files_bank := None; files_offer := None |}.

(** The profile object the handler works with, when the body gives it
    one: [{}] stands in for an absent or empty [req.body.profile]. *)
Definition request_profile (req : Request) : gmap string jsval :=
  match body_profile req with
  | Some (Parses (JsonObject profile)) => profile
  | _ => ∅
  end.

(** The calls that reach a component of the engine (validator,
    aggregator, risk helpers), as opposed to housekeeping. *)
Definition is_component_call (e : event) : bool :=
  match e with
  | CallAnalyzeDocument _ _ | CallComputeScore _ | CallFundsRisk | CallDocsRisk => true
  | CallCleanupFiles _ | ConsoleError => false
  end.

(** ** The temporary files

    [cleanupFiles] works on the disk; of the disk the code only asks
    whether a path exists and removes paths: it is the set of the paths
    that exist. *)

(** [cleanupFiles(files)], lines 25-31: a file whose [path] is not
    empty and exists is unlinked. *)
Definition cleanupFiles (files : list File) (disk : gset string) : gset string :=
  foldl (fun disk f =>
           if negb (String.eqb (file_path f) "") && bool_decide (file_path f ∈ disk)
           then disk ∖ {[ file_path f ]}
           else disk)
        disk files.

(** The disk after the calls of a run of the handler: only
    [cleanupFiles] touches it. *)
Definition disk_after (trace : list event) (disk : gset string) : gset string :=
  foldl (fun disk e =>
           match e with
           | CallCleanupFiles files => cleanupFiles files disk
           | _ => disk
           end)
        disk trace.

(** ** More notions used in the statements *)

(** The sum of the impacts of the documents. *)
Definition total_impact (docs : list DocResult.t) : Z :=
  foldr (fun d acc => DocResult.scoreImpact d + acc) 0 docs.

(** The three profile adjustments of [computeScore]. *)
Definition funds_adjustment (funds : option Z) : Z :=
  if Js.gt funds 150000 then 10 else if Js.lt funds 50000 then -10 else 0.

Definition education_adjustment (education : jsval) : Z :=
  if Js.strict_eq education "Masters" || Js.strict_eq education "PhD"
  then 5 else 0.

Definition past_visa_adjustment (past_visa : jsval) : Z :=
  (if Js.strict_eq past_visa "3+" then 5 else 0)
  + (if Js.strict_eq past_visa "None" then -5 else 0).

(** The request [req] with another profile object. *)
Definition with_profile (req : Request) (profile : gmap string jsval) : Request :=
  {| body_profile := Some (Parses (JsonObject profile));
     files_passport := files_passport req;
     files_bank := files_bank req;
     files_offer := files_offer req |}.

(** The properties of the profile that the handler reads. *)
Definition profile_keys_read : list string :=
  ["name"; "funds"; "education"; "past_visa"; "purpose"].

(** Every character of [s] is a decimal digit. *)
Fixpoint all_digits (s : string) : bool :=
  match s with
  | EmptyString => true
  | String c r => match Js.digit c with Some _ => all_digits r | None => false end
  end.

(** [c] occurs in [s]. *)
Fixpoint occurs (c : ascii) (s : string) : bool :=
  match s with
  | EmptyString => false
  | String c' r => Ascii.eqb c' c || occurs c r
  end.

(** ** The front end: helpers and interview practice of [App.jsx]

    Numbers are rationals; [Math.random()] is a rational [rand] with
    [0 <= rand < 1]. *)

Module App.

(** [clamp(v, a = 0, b = 100)], line 46. *)
Definition clamp (v a b : Q) : Q := Qmax a (Qmin b v).

(** The colour of the path of [ScoreGauge]. *)
Definition gauge_color (value : Q) : string :=
  if Qlt_bool 75 value then "#16a34a"
  else if Qlt_bool 50 value then "#f59e0b"
  else "#ef4444".

(** What [ScoreGauge] hands to the progress bar. *)
Definition gauge_value (value : Q) : Q := clamp value 0 100.

(** [String.prototype.toUpperCase], on the ASCII range. *)
Definition upper_char (c : ascii) : ascii :=
  let n := nat_of_ascii c in
  if ((97 <=? n) && (n <=? 122))%nat then ascii_of_nat (n - 32) else c.

Fixpoint toUpperCase (s : string) : string :=
  match s with
  | EmptyString => EmptyString
  | String c r => String (upper_char c) (toUpperCase r)
  end.

(** [s.split(sep)] for a separator of one character. *)
Fixpoint split (sep : ascii) (s : string) : list string :=
  match s with
  | EmptyString => [EmptyString]
  | String c r =>
      if Ascii.eqb c sep then EmptyString :: split sep r
      else match split sep r with
           | seg :: segs => String c seg :: segs
           | [] => [String c EmptyString]
           end
  end.

(** The badge of a file in [FileUploader]:
    [f.name.split('.').pop()?.toUpperCase()]; [None] is [undefined]. *)
Definition badge (name : string) : option string :=
  toUpperCase <$> last (split "." name).

Definition questions : list string :=
  [ "Why do you want to study/work in this country?";
    "How will you fund your stay?";
    "What are your plans after finishing the program?" ].

Record Feedback := mkFeedback {
  score : Z;
  tips : list string;
  improved : string
}.

(** An entry of [history]; [q] is [None] for [undefined]. *)
Record Exchange := mkExchange {
  q : option string;
  a : string;
  fb : Feedback
}.

(** The state of [InterviewPractice]. *)
Record Interview := mkInterview {
  history : list Exchange;
  answer : string;
  feedback : option Feedback
}.

Definition initial : Interview :=
  {| history := []; answer := ""; feedback := None |}.

(** [questions[history.length % questions.length]] *)
Definition ask (history : list Exchange) : option string :=
  questions !! (length history mod length questions)%nat.

(** The text area: [setAnswer(e.target.value)]. *)
Definition type (text : string) (st : Interview) : Interview :=
  {| history := history st; answer := text; feedback := feedback st |}.

(** [submit], with the value [rand] drawn by [Math.random()]. *)
Definition submit (rand : Q) (st : Interview) : Interview :=
  let mock :=
    {| score := Qfloor (rand * 5) + 5;
       tips := ["Be concise"; "Give exact figures"; "Show ties to home country"];
       improved := answer st +:+ " — Improved: I plan to ..." |} in
  {| history :=
       (history st ++ [{| q := ask (history st); a := answer st; fb := mock |}])%list;
     answer := "";
     feedback := Some mock |}.

(** A session: the candidate types an answer and submits it, once for
    each pair of an answer and a random draw. *)
Definition session (turns : list (string * Q)) (st : Interview) : Interview :=
  foldl (fun st turn => submit (snd turn) (type (fst turn) st)) st turns.

End App.

(** ** The generative pathway: [server/index.js]

    What the handler does around the call of the model: the checks
    before it, the address it calls, the cleaning of the reply and the
    answer it gives.  The body of the request sent to the model (the
    prompt and the files in base64) is left out. *)

Module Gemini.

(** [String.prototype.trim], on the white space of the ASCII range. *)
Fixpoint trimEnd (s : string) : string :=
  match s with
  | EmptyString => EmptyString
  | String c r =>
      let r' := trimEnd r in
      if Js.isWhiteSpace c && String.eqb r' "" then EmptyString
      else String c r'
  end.

Definition trim (s : string) : string := trimEnd (Js.trimStart s).

(** [s.replace(/pat/g, '')] for a pattern of literal characters: the
    matches are taken from left to right and do not overlap; [skip]
    counts the characters of the current match still to be dropped. *)
Fixpoint remove_from (pat : string) (skip : nat) (s : string) : string :=
  match s with
  | EmptyString => EmptyString
  | String c r =>
      match skip with
      | S k => remove_from pat k r
      | O =>
          if String.prefix pat s
          then remove_from pat (String.length pat - 1) r
          else String c (remove_from pat 0 r)
      end
  end.

Definition remove_all (pat : string) (s : string) : string :=
  remove_from pat 0 s.

Definition fence : string := "```".
Definition json_fence : string := "```json".

(** [text.replace(/```json/g, '').replace(/```/g, '').trim()] *)
Definition cleanText (text : string) : string :=
  trim (remove_all fence (remove_all json_fence text)).

(** [sub] occurs in [s]. *)
Fixpoint contains (sub s : string) : bool :=
  String.prefix sub s
  || match s with
     | EmptyString => false
     | String _ r => contains sub r
     end.

(** A file kept in memory by multer. *)
Record MemFile := mkMemFile {
  mem_originalname : string;
  mimetype : string;
  buffer : string
}.

(** The request: the fields of the body and the files, [None] when
    [req.files] is undefined. *)
Record Request := mkRequest {
  profile : gmap string jsval;
  files : option (list MemFile)
}.

Inductive event :=
| Fetch (url : string)
| ConsoleLog
| ConsoleError.

(** What comes back from the model, as the handler sees it. *)
Inductive reply :=
| Rejects (message : string)
    (* [fetch] or [response.json()] rejects, or the text is not found
       in the data or is not a string: the message of the error *)
| NotOk (status : Z) (statusText errText : string)
    (* a response with [response.ok] false, whose text [errText] is
       read *)
| Candidate (text : string).
    (* [data.candidates[0].content.parts[0].text] *)

(** The key is configured: defined and not empty. *)
Definition configured (key : option string) : Prop :=
  exists k, key = Some k /\ k <> "".

Definition endpoint (apiKey : string) : string :=
  "https://generativelanguage.googleapis.com/v1beta/models/"
  +:+ "gemini-flash-latest" +:+ ":generateContent?key=" +:+ apiKey.

Section Handler.

(** The values of JSON and [JSON.parse], [None] when it throws. *)
Variable J : Type.
Variable JSON_parse : string -> option J.

Inductive payload :=
| Error (error : string)
| Failed (error : string) (raw : string)
| Data (jsonData : J).

Record Response := mkResponse { status : Z; body : payload }.

(** The handler of [POST /api/analyze]; [key] is
    [process.env.GEMINI_API_KEY] and [answer] what the model gives if
    it is called. *)
Definition analyze (key : option string) (req : Request) (answer : reply)
  : list event * Response :=
  if negb (Js.ToBoolean (from_option VStr VUndefined key)) then
    ([], {| status := 500;
            body := Error "Server configuration error: GEMINI_API_KEY is missing." |})
  else
    match files req with
    | None | Some [] =>
        ([], {| status := 400; body := Error "No files uploaded" |})
    | Some (_ :: _) =>
        let apiKey := trim (default "" key) in
        let url := endpoint apiKey in
        let before := [ConsoleLog; ConsoleLog; Fetch url] in
        match answer with
        | Rejects message =>
            ((before ++ [ConsoleError])%list,
             {| status := 500; body := Error message |})
        | NotOk st statusText errText =>
            ((before ++ [ConsoleError])%list,
             {| status := 500;
                body := Error ("Gemini API Error: " +:+ Js.ToString (VNum st)
                               +:+ " " +:+ statusText +:+ " - " +:+ errText) |})
        | Candidate text =>
            let cleaned := cleanText text in
            match JSON_parse cleaned with
            | Some jsonData => (before, {| status := 200; body := Data jsonData |})
            | None =>
                ((before ++ [ConsoleError])%list,
                 {| status := 500;
                    body := Failed "Failed to process analysis results" text |})
            end
        end
    end.

End Handler.

End Gemini.

(** * Properties *)

(** ** [path.extname] on sample names *)

Example extname_pdf : path.extname "ID.PDF" = ".PDF".
Proof. reflexivity. Qed.
Example extname_none : path.extname "passport" = "".
Proof. reflexivity. Qed.
Example extname_dotfile : path.extname ".bashrc" = "".
Proof. reflexivity. Qed.
Example extname_dotdot : path.extname ".." = "".
Proof. reflexivity. Qed.
Example extname_last : path.extname "a.tar.gz" = ".gz".
Proof. reflexivity. Qed.
Example extname_dir : path.extname "a.b/c" = "".
Proof. reflexivity. Qed.
Example extname_trailing_dot : path.extname "scan." = ".".
Proof. reflexivity. Qed.
Example extname_trailing_slash : path.extname "dir/x.png/" = ".png".
Proof. reflexivity. Qed.

(** ** [parseInt] on sample values *)

Example parseInt_digits : Js.parseInt (VStr "200000") = Some 200000.
Proof. reflexivity. Qed.
Example parseInt_number : Js.parseInt (VNum 20000) = Some 20000.
Proof. reflexivity. Qed.
Example parseInt_prefix : Js.parseInt (VStr "  -12abc") = Some (-12).
Proof. reflexivity. Qed.
Example parseInt_no_hex : Js.parseInt (VStr "0x10") = Some 0.
Proof. reflexivity. Qed.
Example parseInt_letters : Js.parseInt (VStr "abc") = None.
Proof. reflexivity. Qed.
Example parseInt_sign_only : Js.parseInt (VStr "-") = None.
Proof. reflexivity. Qed.
Example parseInt_true : Js.parseInt (VBool true) = None.
Proof. reflexivity. Qed.

(** ** The scenarios of the specification *)

Example scenario_A_answer :
  exists trace r,
    analyze scenario_A = (trace, Normal {| status := 200; body := Result r |}) /\
    AnalysisResult.score r = 100 /\
    AnalysisResult.plain r = "Highly likely" /\
    AnalysisResult.reasons r
    = ["Strong financial capacity"; "Advanced education supports purpose";
       "Good travel history – positive signal"].
Proof. eexists _, _. split; [vm_compute; reflexivity|]. repeat split. Qed.

Example scenario_B_answer :
  exists trace r,
    analyze scenario_B = (trace, Normal {| status := 200; body := Result r |}) /\
    AnalysisResult.score r = 50 /\
    AnalysisResult.plain r = "Borderline" /\
    AnalysisResult.reasons r
    = ["Low declared funds – risk on finances";
       "No prior visa history – neutral or slightly risky";
       "One or more documents look weak or invalid"] /\
    map (fun d : gmap string jsval => d !! "ok") (AnalysisResult.docs r)
    = [Some (VBool true); Some (VBool false); Some (VBool true)].
Proof. eexists _, _. split; [vm_compute; reflexivity|]. repeat split. Qed.

Example scenario_C_answer :
  analyzeDocument (mkFile "letter.docx" 40960 "uploads/o") "offer"
  = {| Analysis.ok := false;
       Analysis.note :=
         "Unsupported file type (.docx). Please upload PDF or image.";
       Analysis.scoreImpact := -20 |}.
Proof. reflexivity. Qed.

(** ** Lower-casing commutes with taking the extension *)

Section LowerCase.
Import JsString.

Lemma lower_char_idem c : lower_char (lower_char c) = lower_char c.
Proof.
  destruct c as [[] [] [] [] [] [] [] []]; reflexivity.
Qed.

Lemma lower_char_slash c :
  Ascii.eqb (lower_char c) path.CHAR_FORWARD_SLASH
  = Ascii.eqb c path.CHAR_FORWARD_SLASH.
Proof.
  destruct c as [[] [] [] [] [] [] [] []]; reflexivity.
Qed.

Lemma lower_char_dot c :
  Ascii.eqb (lower_char c) path.CHAR_DOT = Ascii.eqb c path.CHAR_DOT.
Proof.
  destruct c as [[] [] [] [] [] [] [] []]; reflexivity.
Qed.

Lemma toLowerCase_idem s : toLowerCase (toLowerCase s) = toLowerCase s.
Proof.
  induction s as [|c r IH]; simpl; [reflexivity|].
  now rewrite lower_char_idem, IH.
Qed.

Lemma toLowerCase_length s : String.length (toLowerCase s) = String.length s.
Proof.
  induction s as [|c r IH]; simpl; [reflexivity|]. now rewrite IH.
Qed.

Lemma toLowerCase_chars s :
  list_ascii_of_string (toLowerCase s)
  = List.map lower_char (list_ascii_of_string s).
Proof.
  induction s as [|c r IH]; simpl; [reflexivity|]. now rewrite IH.
Qed.

Lemma toLowerCase_substring n m s :
  substring n m (toLowerCase s) = toLowerCase (substring n m s).
Proof.
  revert n m; induction s as [|c r IH]; intros n m.
  - destruct n, m; reflexivity.
  - destruct n as [|n]; simpl.
    + destruct m as [|m]; simpl; [reflexivity|]. now rewrite IH.
    + apply IH.
Qed.

Lemma visit_lower code i s :
  path.visit (lower_char code) i s = path.visit code i s.
Proof.
  unfold path.visit. now rewrite lower_char_dot.
Qed.

Lemma scan_lower codes : forall i s,
  path.scan (List.map lower_char codes) i s = path.scan codes i s.
Proof.
  induction codes as [|code rest IH]; intros i s; simpl; [reflexivity|].
  rewrite lower_char_slash, visit_lower, !IH. reflexivity.
Qed.

Lemma extname_toLowerCase p :
  path.extname (toLowerCase p) = toLowerCase (path.extname p).
Proof.
  unfold path.extname.
  rewrite toLowerCase_chars, <- List.map_rev, scan_lower, toLowerCase_length.
  destruct (_ || _); [reflexivity|].
  unfold slice. apply toLowerCase_substring.
Qed.

(** The extension [analyzeDocument] looks at only depends on the
    name up to the case of its letters. *)
Lemma lowered_extension_of_lowered_name p :
  toLowerCase (path.extname p) = toLowerCase (path.extname (toLowerCase p)).
Proof.
  now rewrite extname_toLowerCase, toLowerCase_idem.
Qed.

End LowerCase.

(** ** DocumentValidator: [analyzeDocument] *)

Lemma includes_In l x : includes l x = true <-> In x l.
Proof.
  unfold includes. rewrite existsb_exists. split.
  - intros (y & Hy & Heq). apply String.eqb_eq in Heq. now subst.
  - intros Hx. exists x. split; [assumption | apply String.eqb_refl].
Qed.

Lemma includes_not_In l x : includes l x = false <-> ~ In x l.
Proof.
  rewrite <- includes_In. destruct (includes l x); split; congruence.
Qed.

Lemma Qlt_bool_iff x y : Qlt_bool x y = true <-> (x < y)%Q.
Proof.
  unfold Qlt_bool. rewrite negb_true_iff. split.
  - intros H. apply Qnot_le_lt. intros Hle.
    apply Qle_bool_iff in Hle. congruence.
  - intros H. destruct (Qle_bool y x) eqn:E; [|reflexivity].
    apply Qle_bool_iff in E. exfalso. exact (Qlt_not_le _ _ H E).
Qed.

Lemma Qlt_bool_false_iff x y : Qlt_bool x y = false <-> ~ (x < y)%Q.
Proof.
  rewrite <- Qlt_bool_iff. destruct (Qlt_bool x y); split; congruence.
Qed.

(** The size test counts bytes: below 30 KB is below 30720 bytes. *)
Lemma sizeKB_lt_30 file : (sizeKB file < 30)%Q <-> size file < 30720.
Proof.
  unfold sizeKB, Qlt, Qdiv, Qmult, Qinv, inject_Z. simpl. lia.
Qed.

(** C4. The rules of DocumentValidator are applied in order and the
    first that matches decides: an extension (lower-cased) outside
    [.pdf], [.jpg], [.jpeg], [.png] gives [ok = false] and impact -20
    whatever the role and size; otherwise a size below 30 KB gives
    [ok = false] and impact -15; otherwise [ok = true] with impact +15
    for passport, +20 for bank, +15 for offer and +5 for any other
    role. *)
Theorem analyzeDocument_rules (file : File) (type : string) :
  let ext := JsString.toLowerCase (path.extname (originalname file)) in
  let r := analyzeDocument file type in
  let allowed := In ext [".pdf"; ".jpg"; ".jpeg"; ".png"] in
  let small := (inject_Z (size file) / 1024 < 30)%Q in
  (~ allowed ->
     Analysis.ok r = false /\ Analysis.scoreImpact r = -20) /\
  (allowed -> small ->
     Analysis.ok r = false /\ Analysis.scoreImpact r = -15) /\
  (allowed -> ~ small ->
     Analysis.ok r = true /\
     (type = "passport" -> Analysis.scoreImpact r = 15) /\
     (type = "bank" -> Analysis.scoreImpact r = 20) /\
     (type = "offer" -> Analysis.scoreImpact r = 15) /\
     (type <> "passport" -> type <> "bank" -> type <> "offer" ->
        Analysis.scoreImpact r = 5)).
Proof.
  intros ext r allowed small. subst r. unfold analyzeDocument.
  fold ext. change (inject_Z (size file) / 1024)%Q with (sizeKB file) in small.
  destruct (includes allowedExt ext) eqn:Hext; simpl.
  - apply includes_In in Hext.
    destruct (Qlt_bool (sizeKB file) 30) eqn:Hsize.
    + apply Qlt_bool_iff in Hsize. simpl.
      repeat split; try reflexivity; intros; contradiction.
    + apply Qlt_bool_false_iff in Hsize.
      split; [intros Hn; contradiction|].
      split; [intros _ Hs; contradiction|].
      intros _ _.
      destruct (String.eqb_spec type "passport") as [->|Hp]; simpl.
      { repeat split; try reflexivity; intros; congruence. }
      destruct (String.eqb_spec type "bank") as [->|Hb]; simpl.
      { repeat split; try reflexivity; intros; congruence. }
      destruct (String.eqb_spec type "offer") as [->|Ho]; simpl.
      { repeat split; try reflexivity; intros; congruence. }
      repeat split; try reflexivity; intros; congruence.
  - apply includes_not_In in Hext.
    split; [intros _; split; reflexivity|].
    split; intros Ha; contradiction.
Qed.

Lemma analyzeDocument_rules_witness :
  (Analysis.ok (analyzeDocument (mkFile "cv.docx" 40960 "uploads/c") "bank") = false /\
   Analysis.scoreImpact (analyzeDocument (mkFile "cv.docx" 40960 "uploads/c") "bank") = -20) /\
  (Analysis.ok (analyzeDocument (mkFile "bank.pdf" 10240 "uploads/b") "bank") = false /\
   Analysis.scoreImpact (analyzeDocument (mkFile "bank.pdf" 10240 "uploads/b") "bank") = -15) /\
  (Analysis.ok (analyzeDocument (mkFile "bank.pdf" 30720 "uploads/b") "bank") = true /\
   Analysis.scoreImpact (analyzeDocument (mkFile "bank.pdf" 30720 "uploads/b") "bank") = 20).
Proof.
  split; [|split].
  - destruct (analyzeDocument_rules (mkFile "cv.docx" 40960 "uploads/c") "bank")
      as (R1 & _ & _).
    apply R1. vm_compute. intuition discriminate.
  - destruct (analyzeDocument_rules (mkFile "bank.pdf" 10240 "uploads/b") "bank")
      as (_ & R2 & _).
    apply R2; [vm_compute; auto | vm_compute; reflexivity].
  - destruct (analyzeDocument_rules (mkFile "bank.pdf" 30720 "uploads/b") "bank")
      as (_ & _ & R3).
    destruct R3 as (Hok & _ & Hbank & _);
      [vm_compute; auto | vm_compute; discriminate|].
    split; [exact Hok | exact (Hbank eq_refl)].
Defined.

(** C9. The extension check does not see the case of letters: two
    files whose names differ only in letter case (and of the same
    size) get the same assessment, for every role. *)
Theorem analyzeDocument_case_insensitive (f1 f2 : File) (type : string) :
  JsString.toLowerCase (originalname f1) = JsString.toLowerCase (originalname f2) ->
  size f1 = size f2 ->
  analyzeDocument f1 type = analyzeDocument f2 type.
Proof.
  intros Hname Hsize. unfold analyzeDocument, sizeKB.
  rewrite (lowered_extension_of_lowered_name (originalname f1)), Hname,
    <- (lowered_extension_of_lowered_name (originalname f2)), Hsize.
  reflexivity.
Qed.

(** "ID.PDF" is accepted as "id.pdf" is. *)
Lemma analyzeDocument_case_insensitive_witness :
  analyzeDocument (mkFile "ID.PDF" 40960 "uploads/a") "passport"
  = analyzeDocument (mkFile "id.pdf" 40960 "uploads/b") "passport"
  /\ Analysis.ok (analyzeDocument (mkFile "ID.PDF" 40960 "uploads/a") "passport")
     = true.
Proof.
  split.
  - apply (analyzeDocument_case_insensitive
             (mkFile "ID.PDF" 40960 "uploads/a")
             (mkFile "id.pdf" 40960 "uploads/b") "passport");
      reflexivity.
  - reflexivity.
Defined.

(** C10. An assessment is [ok] exactly when its impact is positive:
    accepted documents carry +5, +15 or +20, rejected ones -20 or
    -15. *)
Theorem analyzeDocument_ok_iff_positive (file : File) (type : string) :
  let r := analyzeDocument file type in
  (Analysis.ok r = true <-> 0 < Analysis.scoreImpact r) /\
  (Analysis.ok r = true -> In (Analysis.scoreImpact r) [5; 15; 20]) /\
  (Analysis.ok r = false -> In (Analysis.scoreImpact r) [-20; -15]).
Proof.
  intros r. subst r. unfold analyzeDocument.
  destruct (negb _); [simpl; intuition (try lia; try congruence)|].
  destruct (Qlt_bool _ _); [simpl; intuition (try lia; try congruence)|].
  destruct (String.eqb type "passport");
    [simpl; intuition (try lia; try congruence)|].
  destruct (String.eqb type "bank");
    [simpl; intuition (try lia; try congruence)|].
  destruct (String.eqb type "offer");
    simpl; intuition (try lia; try congruence).
Qed.

Lemma analyzeDocument_ok_iff_positive_witness :
  In (Analysis.scoreImpact
        (analyzeDocument (mkFile "photo.jpeg" 40960 "uploads/x") "selfie"))
     [5; 15; 20] /\
  In (Analysis.scoreImpact
        (analyzeDocument (mkFile "photo.gif" 40960 "uploads/x") "passport"))
     [-20; -15].
Proof.
  split.
  - destruct (analyzeDocument_ok_iff_positive
                (mkFile "photo.jpeg" 40960 "uploads/x") "selfie") as (_ & Hpos & _).
    apply Hpos. reflexivity.
  - destruct (analyzeDocument_ok_iff_positive
                (mkFile "photo.gif" 40960 "uploads/x") "passport") as (_ & _ & Hneg).
    apply Hneg. reflexivity.
Defined.

(** ** ScoreAggregator: [computeScore] *)

(** The first reason is the one about funds, chosen by the two
    comparisons of the parsed funds. *)
Lemma computeScore_funds_reason profile docs :
  head (ScoreInfo.reasons (computeScore profile docs))
  = Some (if Js.gt (parsed_funds profile) 150000 then strong_funds
          else if Js.lt (parsed_funds profile) 50000 then low_funds
          else moderate_funds).
Proof.
  unfold computeScore, parsed_funds, push. cbn zeta.
  destruct (Js.gt _ 150000); [|destruct (Js.lt _ 50000)];
    destruct (_ || _); destruct (Js.strict_eq _ "3+");
    destruct (Js.strict_eq _ "None"); destruct (existsb _ _); reflexivity.
Qed.

(** Only the first reason can be one of the three about funds. *)
Lemma computeScore_reasons_tail profile docs :
  forall r, In r (tail (ScoreInfo.reasons (computeScore profile docs))) ->
    r <> strong_funds /\ r <> low_funds /\ r <> moderate_funds.
Proof.
  intros r. unfold computeScore, push. cbn zeta.
  destruct (Js.gt _ 150000); [|destruct (Js.lt _ 50000)];
    destruct (_ || _); destruct (Js.strict_eq _ "3+");
    destruct (Js.strict_eq _ "None"); destruct (existsb _ _); simpl;
    intros H; repeat (destruct H as [<-|H]; [repeat split; discriminate|]);
    contradiction.
Qed.

(** Funds that are missing, [null], the empty string, [0] or [false]
    are replaced by ['0'] and parse to 0. *)
Lemma falsy_funds_parse_to_zero profile :
  Js.ToBoolean (Js.get profile "funds") = false ->
  parsed_funds profile = Some 0.
Proof.
  intros H. unfold parsed_funds, Js.or. rewrite H. reflexivity.
Qed.

(** With such funds the low-funds branch is the one taken. *)
Lemma falsy_funds_low profile docs :
  Js.ToBoolean (Js.get profile "funds") = false ->
  In low_funds (ScoreInfo.reasons (computeScore profile docs)) /\
  ~ In moderate_funds (ScoreInfo.reasons (computeScore profile docs)).
Proof.
  intros H.
  pose proof (computeScore_funds_reason profile docs) as Hhd.
  pose proof (computeScore_reasons_tail profile docs) as Htl.
  rewrite (falsy_funds_parse_to_zero _ H) in Hhd.
  destruct (ScoreInfo.reasons (computeScore profile docs)) as [|r0 rs];
    [discriminate Hhd|]. simpl in Hhd.
  injection Hhd as ->. simpl in Htl. split.
  - now left.
  - intros [Heq|Hin]; [discriminate Heq|].
    destruct (Htl _ Hin) as (_ & _ & Hm). now apply Hm.
Qed.

(** Funds without a leading decimal integer parse to [NaN]: neither
    comparison holds, and the reason given is the one for moderate
    funds. *)
Lemma nan_funds_moderate profile docs :
  parsed_funds profile = None ->
  In moderate_funds (ScoreInfo.reasons (computeScore profile docs)) /\
  ~ In low_funds (ScoreInfo.reasons (computeScore profile docs)).
Proof.
  intros H.
  pose proof (computeScore_funds_reason profile docs) as Hhd.
  pose proof (computeScore_reasons_tail profile docs) as Htl.
  rewrite H in Hhd.
  destruct (ScoreInfo.reasons (computeScore profile docs)) as [|r0 rs];
    [discriminate Hhd|]. simpl in Hhd.
  injection Hhd as ->. simpl in Htl. split.
  - now left.
  - intros [Heq|Hin]; [discriminate Heq|].
    destruct (Htl _ Hin) as (_ & Hl & _). now apply Hl.
Qed.

(** C1, at a profile whose funds are not numeric.  With
    [funds = "abc"] and no documents the aggregator makes no funds
    adjustment (the score stays 50, where the same profile without
    funds scores 40) and reports moderate funds, not low funds. *)
Theorem computeScore_non_numeric_funds :
  parsed_funds {[ "funds" := VStr "abc" ]} = None /\
  computeScore {[ "funds" := VStr "abc" ]} []
  = {| ScoreInfo.score := 50; ScoreInfo.plain := "Borderline";
       ScoreInfo.reasons := ["Funds appear moderate for stay"] |} /\
  computeScore ∅ []
  = {| ScoreInfo.score := 40; ScoreInfo.plain := "Unlikely";
       ScoreInfo.reasons := ["Low declared funds – risk on finances"] |}.
Proof. repeat split. Qed.

(** C2. Whatever the profile (funds of any size or sign included) and
    whatever the document assessments, the score returned is an
    integer between 0 and 100. *)
Theorem computeScore_score_range (profile : gmap string jsval)
    (docResults : list DocResult.t) :
  0 <= ScoreInfo.score (computeScore profile docResults) <= 100.
Proof.
  unfold computeScore. cbn -[Z.max Z.min fold_left]. lia.
Qed.

(** C3. The band is read off the clamped score, highest threshold
    first: on 0..100 it is "Highly likely" exactly from 75, "Likely"
    exactly on 60..74, "Borderline" exactly on 45..59 and "Unlikely"
    exactly below 45, so that 45, 60 and 75 fall in the higher band;
    and this is the band [computeScore] returns with its score. *)
Theorem band_mapping (s : Z) :
  0 <= s <= 100 ->
  (plain_of s = "Highly likely" <-> 75 <= s) /\
  (plain_of s = "Likely" <-> 60 <= s < 75) /\
  (plain_of s = "Borderline" <-> 45 <= s < 60) /\
  (plain_of s = "Unlikely" <-> s < 45) /\
  (forall profile docResults,
     ScoreInfo.score (computeScore profile docResults) = s ->
     ScoreInfo.plain (computeScore profile docResults) = plain_of s).
Proof.
  intros _.
  assert (Hlink : forall profile docResults,
            ScoreInfo.score (computeScore profile docResults) = s ->
            ScoreInfo.plain (computeScore profile docResults) = plain_of s)
    by (intros profile docResults <-; reflexivity).
  unfold plain_of in *.
  destruct (Z.leb_spec 75 s); [|destruct (Z.leb_spec 60 s);
    [|destruct (Z.leb_spec 45 s)]];
    repeat (split; [split; intros Hb; first [reflexivity | lia | discriminate Hb]|]);
    exact Hlink.
Qed.

Lemma band_mapping_witness :
  plain_of 45 = "Borderline" /\ plain_of 60 = "Likely"
  /\ plain_of 75 = "Highly likely" /\ plain_of 44 = "Unlikely".
Proof.
  split; [apply (band_mapping 45); lia|].
  split; [apply (band_mapping 60); lia|].
  split; [apply (band_mapping 75); lia|].
  apply (band_mapping 44); lia.
Defined.

(** ** The handler *)

(** A request that is answered with a result had all three files and
    a profile that is an object; the calls and the result are then
    determined. *)
Lemma analyze_result_inv req trace st r :
  analyze req = (trace, Normal {| status := st; body := Result r |}) ->
  exists passport bank offer,
    first_file (files_passport req) = Some passport /\
    first_file (files_bank req) = Some bank /\
    first_file (files_offer req) = Some offer /\
    let profile := request_profile req in
    let docs := assessed passport bank offer in
    let scoreInfo := computeScore profile docs in
    st = 200 /\
    trace = [ CallAnalyzeDocument passport "passport";
              CallAnalyzeDocument bank "bank";
              CallAnalyzeDocument offer "offer";
              CallComputeScore docs; CallFundsRisk; CallDocsRisk;
              CallCleanupFiles [passport; bank; offer] ] /\
    AnalysisResult.score r = ScoreInfo.score scoreInfo /\
    AnalysisResult.plain r = ScoreInfo.plain scoreInfo /\
    AnalysisResult.reasons r = ScoreInfo.reasons scoreInfo /\
    AnalysisResult.docs r = map rest_of docs /\
    AnalysisResult.countries r =
      [ {| Country.name := "Canada";
           Country.score := Z.min 100 (ScoreInfo.score scoreInfo + 3);
           Country.flag := "🇨🇦";
           Country.reason := "Study funds okay; program alignment good." |};
        {| Country.name := "UK";
           Country.score := Z.max 0 (ScoreInfo.score scoreInfo - 8);
           Country.flag := "🇬🇧";
           Country.reason := "Needs stronger financial and document history." |};
        {| Country.name := "Australia";
           Country.score := Z.min 100 (ScoreInfo.score scoreInfo + 5);
           Country.flag := "🇦🇺";
           Country.reason := "Profile matches skill/education demand." |} ] /\
    AnalysisResult.risk r =
      [ {| RiskItem.label := "Finances";
           RiskItem.value := fundsRisk (ScoreInfo.score scoreInfo) |};
        {| RiskItem.label := "Docs"; RiskItem.value := docsRisk docs |};
        {| RiskItem.label := "Travel History";
           RiskItem.value :=
             if Js.strict_eq (Js.get profile "past_visa") "None"
             then 60 else 25 |};
        {| RiskItem.label := "Purpose";
           RiskItem.value :=
             if Js.strict_eq (Js.get profile "purpose") "Study"
                || Js.strict_eq (Js.get profile "purpose") "Work"
             then 20 else 40 |} ].
Proof.
  unfold request_profile. destruct req as [bp fp fb fo]. run_handler.
  cbn [body_profile files_passport files_bank files_offer].
  destruct bp as [[|[|profile]]|];
    destruct (first_file fp) as [passport|];
    destruct (first_file fb) as [bank|];
    destruct (first_file fo) as [offer|];
    cbn; intros H; try discriminate H;
    injection H as <- <- <-;
    exists passport, bank, offer; cbn; repeat split.
Qed.

(** The score of every result is the aggregator's, hence in 0..100. *)
Lemma analyze_score_range req trace st r :
  analyze req = (trace, Normal {| status := st; body := Result r |}) ->
  0 <= AnalysisResult.score r <= 100.
Proof.
  intros H.
  apply analyze_result_inv in H
    as (passport & bank & offer & _ & _ & _ & _ & _ & Hs & _).
  rewrite Hs. unfold computeScore. cbn -[Z.max Z.min fold_left]. lia.
Qed.

(** What the rest pattern keeps of an entry. *)
Lemma rest_of_scoreImpact d : rest_of d !! "scoreImpact" = None.
Proof. unfold rest_of. apply lookup_delete_eq. Qed.

Lemma rest_of_name d : rest_of d !! "name" = Some (VStr (DocResult.name d)).
Proof.
  unfold rest_of, DocResult.object.
  rewrite lookup_delete_ne by discriminate. apply lookup_insert_eq.
Qed.

Lemma rest_of_ok d : rest_of d !! "ok" = Some (VBool (DocResult.ok d)).
Proof.
  unfold rest_of, DocResult.object.
  rewrite lookup_delete_ne by discriminate.
  rewrite lookup_insert_ne by discriminate. apply lookup_insert_eq.
Qed.

Lemma rest_of_note d : rest_of d !! "note" = Some (VStr (DocResult.note d)).
Proof.
  unfold rest_of, DocResult.object.
  rewrite lookup_delete_ne by discriminate.
  rewrite !lookup_insert_ne by discriminate. apply lookup_insert_eq.
Qed.

Lemma rest_of_dom d :
  dom (rest_of d) = ({[ "name"; "ok"; "note" ]} : gset string).
Proof.
  unfold rest_of, DocResult.object.
  rewrite dom_delete_L, !dom_insert_L, dom_empty_L.
  apply set_eq. intros k.
  rewrite elem_of_difference, !elem_of_union, !elem_of_singleton.
  split.
  - intros [[->|[->|[->|[->|H]]]] Hne]; auto.
    + now contradiction Hne.
    + now apply not_elem_of_empty in H.
  - intros [[->| ->]| ->]; (split; [auto|discriminate]).
Qed.

(** The entries that are not [ok] are as many after the rest pattern
    as before. *)
Lemma bad_count_rest_of (docs : list DocResult.t) :
  length (filter (fun out : gmap string jsval => out !! "ok" = Some (VBool false))
                 (map rest_of docs))
  = length (List.filter (fun d => negb (DocResult.ok d)) docs).
Proof.
  induction docs as [|d docs IH]; [reflexivity|].
  cbn [map List.filter]. rewrite filter_cons, rest_of_ok.
  destruct (DocResult.ok d); cbn [negb].
  - rewrite decide_False by discriminate. exact IH.
  - rewrite decide_True by reflexivity. cbn [length]. now rewrite IH.
Qed.

Lemma strict_eq_true v lit : Js.strict_eq v lit = true <-> v = VStr lit.
Proof.
  destruct v; simpl; try (split; [discriminate|intros H; discriminate H]).
  rewrite String.eqb_eq. split; [now intros ->|now intros [= ->]].
Qed.

Lemma strict_eq_spec v lit : Bool.reflect (v = VStr lit) (Js.strict_eq v lit).
Proof.
  apply Bool.iff_reflect. symmetry. apply strict_eq_true.
Qed.

(** C5, as stated, fails: with a slot missing and a profile text that
    does not parse, the answer is the internal error of the [catch]
    block (status 500), not the validation error. *)
Lemma missing_document_unparsable_profile :
  slot_missing unparsable_without_files /\
  analyze unparsable_without_files
  = ([ConsoleError],
     Normal {| status := 500; body := Error "Internal error analyzing profile" |}) /\
  ~ (exists trace,
       analyze unparsable_without_files
       = (trace, Normal {| status := 400; body := Error missing_documents |})).
Proof.
  split; [now left|]. split; [reflexivity|].
  intros [trace H]. discriminate H.
Qed.

(** C5, amended.  When a required slot is missing no component is
    called and no result is produced.  The answer is the validation
    error (status 400) after the cleanup of the files that did come,
    unless the profile text does not parse: the text is parsed first,
    and the answer is then the internal error (status 500). *)
Theorem missing_document_rejected (req : Request) :
  slot_missing req ->
  (body_profile req <> Some Unparsable ->
     analyze req
     = ([CallCleanupFiles (present_files req)],
        Normal {| status := 400; body := Error missing_documents |})) /\
  (body_profile req = Some Unparsable ->
     analyze req
     = ([ConsoleError],
        Normal {| status := 500;
                  body := Error "Internal error analyzing profile" |})) /\
  Forall (fun e => is_component_call e = false) (fst (analyze req)) /\
  (forall st r,
     snd (analyze req) <> Normal {| status := st; body := Result r |}).
Proof.
  unfold slot_missing, present_files.
  destruct req as [bp fp fb fo]. run_handler.
  cbn [body_profile files_passport files_bank files_offer].
  intros Hmiss.
  destruct bp as [[|j]|]; cbn [default from_option].
  - cbn. repeat split; try congruence.
    repeat constructor.
  - destruct (first_file fp) as [passport|];
      destruct (first_file fb) as [bank|];
      destruct (first_file fo) as [offer|];
      try (exfalso; destruct Hmiss as [H|[H|H]]; discriminate H);
      cbn; (repeat split; try congruence; [repeat constructor]).
  - destruct (first_file fp) as [passport|];
      destruct (first_file fb) as [bank|];
      destruct (first_file fo) as [offer|];
      try (exfalso; destruct Hmiss as [H|[H|H]]; discriminate H);
      cbn; (repeat split; try congruence; [repeat constructor]).
Qed.

Lemma missing_document_rejected_witness :
  slot_missing bank_missing /\
  analyze bank_missing
  = ([CallCleanupFiles [mkFile "passport.pdf" 40960 "uploads/p";
                        mkFile "offer.png" 40960 "uploads/o"]],
     Normal {| status := 400; body := Error missing_documents |}).
Proof.
  assert (Hmiss : slot_missing bank_missing) by (right; left; reflexivity).
  split; [exact Hmiss|].
  destruct (missing_document_rejected bank_missing Hmiss) as (H400 & _).
  apply H400. discriminate.
Defined.

(** C6. In every result the country comparison is the fixed sequence
    Canada, UK, Australia, scored [min(100, s+3)], [max(0, s-8)] and
    [min(100, s+5)] from the aggregate score [s] of the same result,
    with fixed flags and reasons; two results with the same score
    therefore carry the same comparison, whatever the profiles
    (their [dest_country] included). *)
Theorem countries_fixed_offsets (req : Request) trace st r :
  analyze req = (trace, Normal {| status := st; body := Result r |}) ->
  let s := AnalysisResult.score r in
  AnalysisResult.countries r =
    [ {| Country.name := "Canada"; Country.score := Z.min 100 (s + 3);
         Country.flag := "🇨🇦";
         Country.reason := "Study funds okay; program alignment good." |};
      {| Country.name := "UK"; Country.score := Z.max 0 (s - 8);
         Country.flag := "🇬🇧";
         Country.reason := "Needs stronger financial and document history." |};
      {| Country.name := "Australia"; Country.score := Z.min 100 (s + 5);
         Country.flag := "🇦🇺";
         Country.reason := "Profile matches skill/education demand." |} ] /\
  (forall req' trace' st' r',
     analyze req' = (trace', Normal {| status := st'; body := Result r' |}) ->
     AnalysisResult.score r' = s ->
     AnalysisResult.countries r' = AnalysisResult.countries r).
Proof.
  intros H s. subst s.
  apply analyze_result_inv in H
    as (? & ? & ? & _ & _ & _ & _ & _ & Hs & _ & _ & _ & Hc & _).
  split.
  - now rewrite Hc, Hs.
  - intros req' trace' st' r' H' Heq.
    apply analyze_result_inv in H'
      as (? & ? & ? & _ & _ & _ & _ & _ & Hs' & _ & _ & _ & Hc' & _).
    rewrite Hc, Hc', <- Hs, <- Hs', Heq. reflexivity.
Qed.

Lemma countries_fixed_offsets_witness :
  exists trace r,
    analyze scenario_A = (trace, Normal {| status := 200; body := Result r |}) /\
    AnalysisResult.score r = 100 /\
    map Country.name (AnalysisResult.countries r) = ["Canada"; "UK"; "Australia"] /\
    map Country.score (AnalysisResult.countries r) = [100; 92; 100].
Proof.
  eexists _, _. split; [vm_compute; reflexivity|].
  split; [reflexivity|].
  match goal with
  | |- context [AnalysisResult.countries ?r] =>
      destruct (countries_fixed_offsets scenario_A _ 200 r eq_refl) as [-> _]
  end.
  split; reflexivity.
Defined.

Lemma fundsRisk_cases s :
  (80 <= s -> fundsRisk s = 20) /\
  (60 <= s < 80 -> fundsRisk s = 35) /\
  (s < 60 -> fundsRisk s = 60).
Proof.
  unfold fundsRisk.
  destruct (Z.leb_spec 80 s); destruct (Z.leb_spec 60 s);
    repeat split; intros; first [reflexivity | lia].
Qed.

Lemma docsRisk_cases docs :
  let bad := length (List.filter (fun d => negb (DocResult.ok d)) docs) in
  (bad = 0%nat -> docsRisk docs = 25) /\
  (bad = 1%nat -> docsRisk docs = 50) /\
  ((2 <= bad)%nat -> docsRisk docs = 70).
Proof.
  intros bad. unfold docsRisk. fold bad.
  destruct (Z.eqb_spec (Z.of_nat bad) 0); [|destruct (Z.eqb_spec (Z.of_nat bad) 1)];
    repeat split; intros; first [reflexivity | lia].
Qed.

(** C7. Every result carries exactly four risk items, in the order
    Finances, Docs, Travel History, Purpose.  Finances is 20 from a
    score of 80, 35 from 60, else 60; Docs is 25, 50 or 70 as none,
    one, or two and more of the documents of the result are not [ok];
    Travel History is 60 when [past_visa] is "None", else 25; Purpose
    is 20 when [purpose] is "Study" or "Work", else 40. *)
Theorem risk_items (req : Request) trace st r :
  analyze req = (trace, Normal {| status := st; body := Result r |}) ->
  let s := AnalysisResult.score r in
  let bad :=
    length (filter (fun d : gmap string jsval => d !! "ok" = Some (VBool false))
                   (AnalysisResult.docs r)) in
  let past_visa := Js.get (request_profile req) "past_visa" in
  let purpose := Js.get (request_profile req) "purpose" in
  exists finances docs travel purpose_risk,
    AnalysisResult.risk r =
      [ {| RiskItem.label := "Finances"; RiskItem.value := finances |};
        {| RiskItem.label := "Docs"; RiskItem.value := docs |};
        {| RiskItem.label := "Travel History"; RiskItem.value := travel |};
        {| RiskItem.label := "Purpose"; RiskItem.value := purpose_risk |} ] /\
    (80 <= s -> finances = 20) /\
    (60 <= s < 80 -> finances = 35) /\
    (s < 60 -> finances = 60) /\
    (bad = 0%nat -> docs = 25) /\
    (bad = 1%nat -> docs = 50) /\
    ((2 <= bad)%nat -> docs = 70) /\
    (past_visa = VStr "None" -> travel = 60) /\
    (past_visa <> VStr "None" -> travel = 25) /\
    (purpose = VStr "Study" \/ purpose = VStr "Work" -> purpose_risk = 20) /\
    (purpose <> VStr "Study" -> purpose <> VStr "Work" -> purpose_risk = 40).
Proof.
  intros H s bad past_visa purpose. subst s bad past_visa purpose.
  apply analyze_result_inv in H
    as (passport & bank & offer & _ & _ & _ & _ & _ & Hs & _ & _ & Hd & _ & Hr).
  rewrite Hr, Hs, Hd, bad_count_rest_of.
  eexists _, _, _, _. split; [reflexivity|].
  destruct (fundsRisk_cases
              (ScoreInfo.score (computeScore (request_profile req)
                                             (assessed passport bank offer))))
    as (F1 & F2 & F3).
  destruct (docsRisk_cases (assessed passport bank offer)) as (D1 & D2 & D3).
  do 6 (split; [assumption|]).
  destruct (strict_eq_spec (Js.get (request_profile req) "past_visa") "None")
    as [Ev|Ev];
    (split; [first [reflexivity | congruence]|]);
    (split; [first [reflexivity | congruence]|]);
    destruct (strict_eq_spec (Js.get (request_profile req) "purpose") "Study")
      as [E1|E1];
    destruct (strict_eq_spec (Js.get (request_profile req) "purpose") "Work")
      as [E2|E2];
    cbn [orb]; split; intros; first [reflexivity | congruence | tauto].
Qed.

Lemma risk_items_witness :
  exists trace r,
    analyze scenario_A = (trace, Normal {| status := 200; body := Result r |}) /\
    map RiskItem.label (AnalysisResult.risk r)
    = ["Finances"; "Docs"; "Travel History"; "Purpose"] /\
    map RiskItem.value (AnalysisResult.risk r) = [20; 25; 25; 40].
Proof.
  eexists _, _. split; [vm_compute; reflexivity|].
  match goal with
  | |- context [AnalysisResult.risk ?r] =>
      destruct (risk_items scenario_A _ 200 r eq_refl)
        as (f & d & t & p & -> & F & _ & _ & D & _ & _ & _ & T & _ & P)
  end.
  cbn [map RiskItem.label RiskItem.value].
  rewrite F, D, T, P; [split; reflexivity | discriminate | discriminate
                      | discriminate | reflexivity | vm_compute; discriminate].
Defined.

(** C8. In every result each entry of [docs] has exactly the
    properties [name], [ok] and [note]: it is the entry handed to the
    aggregator with [scoreImpact] removed and the three others as
    they were. *)
Theorem docs_without_scoreImpact (req : Request) trace st r :
  analyze req = (trace, Normal {| status := st; body := Result r |}) ->
  exists internal,
    In (CallComputeScore internal) trace /\
    Forall2
      (fun (d : DocResult.t) (out : gmap string jsval) =>
         dom out = ({[ "name"; "ok"; "note" ]} : gset string) /\
         out !! "scoreImpact" = None /\
         out !! "name" = Some (VStr (DocResult.name d)) /\
         out !! "ok" = Some (VBool (DocResult.ok d)) /\
         out !! "note" = Some (VStr (DocResult.note d)))
      internal (AnalysisResult.docs r).
Proof.
  intros H.
  apply analyze_result_inv in H
    as (passport & bank & offer & _ & _ & _ & _ & Ht & _ & _ & _ & Hd & _).
  exists (assessed passport bank offer). split.
  - rewrite Ht. simpl. auto.
  - rewrite Hd. apply Forall2_fmap_r, Forall_Forall2_diag, Forall_forall.
    intros d _.
    split; [apply rest_of_dom|].
    split; [apply rest_of_scoreImpact|].
    split; [apply rest_of_name|].
    split; [apply rest_of_ok | apply rest_of_note].
Qed.

Lemma docs_without_scoreImpact_witness :
  exists trace r,
    analyze scenario_A = (trace, Normal {| status := 200; body := Result r |}) /\
    exists internal,
      In (CallComputeScore internal) trace /\
      Forall2
        (fun (d : DocResult.t) (out : gmap string jsval) =>
           dom out = ({[ "name"; "ok"; "note" ]} : gset string) /\
           out !! "scoreImpact" = None /\
           out !! "name" = Some (VStr (DocResult.name d)) /\
           out !! "ok" = Some (VBool (DocResult.ok d)) /\
           out !! "note" = Some (VStr (DocResult.note d)))
        internal (AnalysisResult.docs r).
Proof.
  eexists _, _. split; [vm_compute; reflexivity|].
  match goal with
  | |- context [AnalysisResult.docs ?r] =>
      exact (docs_without_scoreImpact scenario_A _ 200 r eq_refl)
  end.
Defined.

(** * Further properties of the engine *)

(** ** The score in closed form *)

Lemma fold_left_impacts docs : forall base,
  fold_left (fun base d => base + DocResult.scoreImpact d) docs base
  = base + total_impact docs.
Proof.
  induction docs as [|d docs IH]; intros base; simpl; [lia|].
  rewrite IH. lia.
Qed.

Lemma computeScore_score profile docs :
  ScoreInfo.score (computeScore profile docs)
  = Z.max 0 (Z.min 100
      (50 + total_impact docs
       + funds_adjustment (parsed_funds profile)
       + education_adjustment (Js.get profile "education")
       + past_visa_adjustment (Js.get profile "past_visa"))).
Proof.
  unfold computeScore, funds_adjustment, education_adjustment,
    past_visa_adjustment, parsed_funds.
  cbn -[Z.max Z.min fold_left]. rewrite fold_left_impacts.
  destruct (Js.gt _ 150000); [|destruct (Js.lt _ 50000)];
    destruct (_ || _); destruct (Js.strict_eq _ "3+");
    destruct (Js.strict_eq _ "None"); f_equal; f_equal; lia.
Qed.

Lemma total_impact_Permutation docs docs' :
  Permutation docs docs' -> total_impact docs = total_impact docs'.
Proof.
  induction 1; simpl; lia.
Qed.

Lemma existsb_Permutation {A} (f : A -> bool) l l' :
  Permutation l l' -> existsb f l = existsb f l'.
Proof.
  induction 1; simpl; try congruence.
  destruct (f x), (f y); reflexivity.
Qed.

(** The result of [computeScore] depends on the documents only
    through the sum of their impacts and through whether one of them
    is not [ok]. *)
Lemma computeScore_docs_summary profile docs docs' :
  total_impact docs = total_impact docs' ->
  existsb (fun d => negb (DocResult.ok d)) docs
  = existsb (fun d => negb (DocResult.ok d)) docs' ->
  computeScore profile docs = computeScore profile docs'.
Proof.
  intros Hsum Hweak. unfold computeScore.
  cbn -[Z.max Z.min fold_left existsb].
  rewrite !fold_left_impacts, Hsum, Hweak. reflexivity.
Qed.

(** X1. The order of the documents does not matter to the aggregator:
    two lists that are permutations of each other give the same
    score, band and reasons. *)
Theorem computeScore_order_independent (profile : gmap string jsval)
    (docs docs' : list DocResult.t) :
  Permutation docs docs' ->
  computeScore profile docs = computeScore profile docs'.
Proof.
  intros H. apply computeScore_docs_summary.
  - now apply total_impact_Permutation.
  - now apply existsb_Permutation.
Qed.

Lemma computeScore_order_independent_witness :
  computeScore ∅ (assessed (mkFile "p.pdf" 40960 "uploads/p")
                          (mkFile "b.txt" 40960 "uploads/b")
                          (mkFile "o.png" 10 "uploads/o"))
  = computeScore ∅ (rev (assessed (mkFile "p.pdf" 40960 "uploads/p")
                                  (mkFile "b.txt" 40960 "uploads/b")
                                  (mkFile "o.png" 10 "uploads/o"))).
Proof.
  apply computeScore_order_independent.
  apply Permutation_rev.
Defined.

Lemma clamp_monotone a b :
  a <= b -> Z.max 0 (Z.min 100 a) <= Z.max 0 (Z.min 100 b).
Proof. lia. Qed.

Lemma analyzeDocument_impact_sign file type :
  (Analysis.ok (analyzeDocument file type) = true ->
     0 < Analysis.scoreImpact (analyzeDocument file type)) /\
  (Analysis.ok (analyzeDocument file type) = false ->
     Analysis.scoreImpact (analyzeDocument file type) < 0).
Proof.
  unfold analyzeDocument.
  destruct (negb _); [simpl; split; [discriminate|lia]|].
  destruct (Qlt_bool _ _); [simpl; split; [discriminate|lia]|].
  destruct (String.eqb type "passport"); [simpl; split; [lia|discriminate]|].
  destruct (String.eqb type "bank"); [simpl; split; [lia|discriminate]|].
  destruct (String.eqb type "offer"); simpl; split; first [lia|discriminate].
Qed.

(** X2. One more assessed document moves the score in the direction
    of its verdict: an accepted document never lowers the score, a
    rejected one never raises it. *)
Theorem computeScore_document_direction (profile : gmap string jsval)
    (docs : list DocResult.t) (name : string) (file : File) (type : string) :
  let d := doc_entry name (analyzeDocument file type) in
  (DocResult.ok d = true ->
     ScoreInfo.score (computeScore profile docs)
     <= ScoreInfo.score (computeScore profile (push docs d))) /\
  (DocResult.ok d = false ->
     ScoreInfo.score (computeScore profile (push docs d))
     <= ScoreInfo.score (computeScore profile docs)).
Proof.
  intros d. subst d. rewrite !computeScore_score.
  assert (Hsum : total_impact (push docs (doc_entry name (analyzeDocument file type)))
                 = total_impact docs
                   + Analysis.scoreImpact (analyzeDocument file type)).
  { unfold push. induction docs as [|d0 docs IH]; simpl in *; lia. }
  rewrite Hsum.
  destruct (analyzeDocument_impact_sign file type) as [Hpos Hneg].
  cbn [doc_entry DocResult.ok].
  split; intros Hok; apply clamp_monotone;
    [specialize (Hpos Hok) | specialize (Hneg Hok)]; lia.
Qed.

Lemma computeScore_document_direction_witness :
  ScoreInfo.score (computeScore ∅ [])
  <= ScoreInfo.score
       (computeScore ∅ (push [] (doc_entry "Passport"
          (analyzeDocument (mkFile "p.pdf" 40960 "uploads/p") "passport")))) /\
  ScoreInfo.score
    (computeScore ∅ (push [] (doc_entry "Passport"
       (analyzeDocument (mkFile "p.exe" 40960 "uploads/p") "passport"))))
  <= ScoreInfo.score (computeScore ∅ []).
Proof.
  split.
  - refine (proj1 (computeScore_document_direction ∅ [] "Passport"
                     (mkFile "p.pdf" 40960 "uploads/p") "passport") _).
    vm_compute. reflexivity.
  - refine (proj2 (computeScore_document_direction ∅ [] "Passport"
                     (mkFile "p.exe" 40960 "uploads/p") "passport") _).
    vm_compute. reflexivity.
Defined.

(** ** Funds given as a number or as a decimal numeral *)




Lemma parseInt_digit_first c r :
  Js.digit c <> None ->
  Js.parseInt (VStr (String c r)) = Js.digits (String c r) None.
Proof.
  destruct c as [[] [] [] [] [] [] [] []];
    (intros H; try (exfalso; apply H; reflexivity));
    unfold Js.parseInt; simpl;
    match goal with |- context [Js.digits r ?a] =>
      destruct (Js.digits r a) as [n|]; [f_equal; lia | reflexivity] end.
Qed.








Lemma get_insert_eq (profile : gmap string jsval) k v :
  Js.get (<[k := v]> profile) k = v.
Proof. unfold Js.get. now rewrite lookup_insert_eq. Qed.

Lemma get_insert_ne (profile : gmap string jsval) k k' v :
  k <> k' -> Js.get (<[k := v]> profile) k' = Js.get profile k'.
Proof. intros H. unfold Js.get. now rewrite lookup_insert_ne. Qed.







(** ** Funds with something after the digits *)

Lemma digits_prefix ds c rest : forall acc,
  all_digits ds = true -> Js.digit c = None ->
  Js.digits (ds ++ String c rest) acc = Js.digits ds acc.
Proof.
  induction ds as [|d ds IH]; intros acc Hds Hc; simpl in *.
  - now rewrite Hc.
  - destruct (Js.digit d); [now apply IH | discriminate Hds].
Qed.

(** X5. [parseInt] stops at the first character that is not a digit:
    funds written as digits followed by anything else (a thousands
    separator, a decimal point, a currency) are read as the digits
    before it. *)
Theorem parsed_funds_stops_at_non_digit (profile : gmap string jsval)
    (ds : string) (c : ascii) (rest : string) :
  all_digits ds = true -> ds <> "" -> Js.digit c = None ->
  parsed_funds (<["funds" := VStr (ds ++ String c rest)]> profile)
  = parsed_funds (<["funds" := VStr ds]> profile).
Proof.
  intros Hds Hne Hc. unfold parsed_funds. rewrite !get_insert_eq.
  destruct ds as [|d ds]; [contradiction|].
  change (String d ds +:+ String c rest)
    with (String d (ds +:+ String c rest)).
  unfold Js.or, Js.ToBoolean. cbn [String.eqb negb].
  assert (Hd : Js.digit d <> None).
  { simpl in Hds. destruct (Js.digit d); [discriminate | discriminate Hds]. }
  rewrite !parseInt_digit_first by assumption.
  exact (digits_prefix (String d ds) c rest None Hds Hc).
Qed.

Lemma parsed_funds_stops_at_non_digit_witness :
  parsed_funds (<["funds" := VStr "200,000"]> ∅) = Some 200.
Proof.
  exact (parsed_funds_stops_at_non_digit ∅ "200" ","%char "000"
           eq_refl ltac:(discriminate) eq_refl).
Defined.

(** ** The reasons *)

(** X6. The aggregator gives between one and four reasons, all
    different: the two reasons about travel history exclude each
    other. *)
Theorem computeScore_reasons_count (profile : gmap string jsval)
    (docs : list DocResult.t) :
  let reasons := ScoreInfo.reasons (computeScore profile docs) in
  (1 <= length reasons <= 4)%nat /\
  NoDup reasons /\
  ~ (In "Good travel history – positive signal" reasons /\
     In "No prior visa history – neutral or slightly risky" reasons).
Proof.
  intros reasons. subst reasons. unfold computeScore. cbn zeta. unfold push.
  destruct (strict_eq_spec (Js.get profile "past_visa") "3+") as [E3|E3];
    destruct (strict_eq_spec (Js.get profile "past_visa") "None") as [En|En];
    [rewrite E3 in En; discriminate En|..];
    (destruct (Js.gt _ 150000); [|destruct (Js.lt _ 50000)]);
    destruct (_ || _); destruct (existsb _ _); cbn [app length ScoreInfo.reasons];
    (split; [lia|]);
    (split; [apply (bool_decide_unpack _); vm_compute; exact I|]);
    intros [H1 H2]; cbn [In] in H1, H2;
    repeat (destruct H1 as [H1|H1]; [try discriminate H1|]);
    try contradiction;
    repeat (destruct H2 as [H2|H2]; [try discriminate H2|]);
    contradiction.
Qed.

(** X7. The reason about weak documents is given exactly when some
    document is not [ok], and it is then the last reason. *)
Theorem computeScore_weak_documents_reason (profile : gmap string jsval)
    (docs : list DocResult.t) :
  let reasons := ScoreInfo.reasons (computeScore profile docs) in
  let weak := "One or more documents look weak or invalid" in
  (In weak reasons <-> exists d, In d docs /\ DocResult.ok d = false) /\
  (In weak reasons -> last reasons = Some weak).
Proof.
  intros reasons weak. subst reasons weak. unfold computeScore. cbn zeta.
  unfold push.
  destruct (existsb (fun d => negb (DocResult.ok d)) docs) eqn:E.
  - assert (Hex : exists d, In d docs /\ DocResult.ok d = false).
    { apply existsb_exists in E as (d & Hd & Hok). exists d. split; [exact Hd|].
      now destruct (DocResult.ok d). }
    cbn [ScoreInfo.reasons]. split.
    + split; [intros _; exact Hex|intros _; apply in_or_app; right; now left].
    + intros _. apply last_snoc.
  - assert (Hnex : ~ exists d, In d docs /\ DocResult.ok d = false).
    { intros (d & Hd & Hok).
      assert (existsb (fun d => negb (DocResult.ok d)) docs = true) as E'
        by (apply existsb_exists; exists d; split; [exact Hd|now rewrite Hok]).
      congruence. }
    assert (Hnin : ~ In "One or more documents look weak or invalid"
                     (ScoreInfo.reasons (computeScore profile docs))).
    { unfold computeScore. cbn zeta. unfold push. rewrite E.
      destruct (Js.gt _ 150000); [|destruct (Js.lt _ 50000)];
        destruct (_ || _); destruct (Js.strict_eq _ "3+");
        destruct (Js.strict_eq _ "None"); cbn [app In ScoreInfo.reasons];
        intros H; repeat (destruct H as [H|H]; [discriminate H|]);
        contradiction. }
    unfold computeScore in Hnin. cbn zeta in Hnin. unfold push in Hnin.
    rewrite E in Hnin. cbn [ScoreInfo.reasons] in *.
    split; [split; [intros H; contradiction | intros H; contradiction]
           | intros H; contradiction].
Qed.

(** ** The verdict on a document *)

(** X8. A document is accepted exactly when its lower-cased extension
    is one of the four allowed and it has at least 30720 bytes; the
    role plays no part in the verdict. *)
Theorem analyzeDocument_ok_iff (file : File) (type : string) :
  Analysis.ok (analyzeDocument file type) = true
  <-> In (JsString.toLowerCase (path.extname (originalname file)))
         [".pdf"; ".jpg"; ".jpeg"; ".png"]
      /\ 30720 <= size file.
Proof.
  unfold analyzeDocument.
  destruct (includes allowedExt _) eqn:Hext; cbn [negb].
  - apply includes_In in Hext.
    destruct (Qlt_bool (sizeKB file) 30) eqn:Hsize.
    + apply Qlt_bool_iff, sizeKB_lt_30 in Hsize. cbn [Analysis.ok].
      split; [discriminate | intros [_ H]; lia].
    + apply Qlt_bool_false_iff in Hsize. rewrite sizeKB_lt_30 in Hsize.
      assert (Hge : 30720 <= size file) by lia.
      destruct (String.eqb type "passport"); [|destruct (String.eqb type "bank");
        [|destruct (String.eqb type "offer")]]; cbn [Analysis.ok];
        (split; [intros _; split; assumption | reflexivity]).
  - apply includes_not_In in Hext. cbn [Analysis.ok].
    split; [discriminate | intros [H _]; contradiction].
Qed.

(** ** Names and their extension *)

Lemma occurs_In c s :
  occurs c s = false -> forall c', In c' (list_ascii_of_string s) -> c' <> c.
Proof.
  induction s as [|c0 r IH]; simpl; [intros _ c' []|].
  intros H c' [<-|Hin].
  - apply orb_false_elim in H as [H _]. now apply Ascii.eqb_neq in H.
  - apply orb_false_elim in H as [_ H]. now apply IH.
Qed.

Lemma list_ascii_of_string_app a b :
  list_ascii_of_string (a ++ b)
  = (list_ascii_of_string a ++ list_ascii_of_string b)%list.
Proof. induction a as [|c a IH]; simpl; [reflexivity|now rewrite IH]. Qed.

Lemma list_ascii_length s :
  length (list_ascii_of_string s) = String.length s.
Proof. induction s as [|c s IH]; simpl; [reflexivity|now rewrite IH]. Qed.

Lemma string_length_app a b :
  String.length (a ++ b) = (String.length a + String.length b)%nat.
Proof. induction a as [|c a IH]; simpl; [reflexivity|now rewrite IH]. Qed.

Lemma string_app_assoc (a b c : string) : (a ++ b) ++ c = a ++ (b ++ c).
Proof.
  induction a as [|x a IH]; [reflexivity|].
  change (String x ((a ++ b) ++ c) = String x (a ++ (b ++ c))). now f_equal.
Qed.

Lemma string_app_nil_r (a : string) : a ++ "" = a.
Proof.
  induction a as [|x a IH]; [reflexivity|].
  change (String x (a ++ "") = String x a). now f_equal.
Qed.

Lemma substring_all s : substring 0 (String.length s) s = s.
Proof. induction s as [|c s IH]; simpl; [reflexivity|now rewrite IH]. Qed.

Lemma substring_app_right a b :
  substring (String.length a) (String.length b) (a ++ b) = b.
Proof.
  induction a as [|c a IH]; simpl; [apply substring_all|exact IH].
Qed.

(** A character that is neither a separator nor a dot leaves a state
    without dot as it is, once the end is known. *)
Lemma visit_plain code i s :
  code <> path.CHAR_DOT -> path.startDot s = -1 -> path.end_ s <> -1 ->
  path.visit code i s = s.
Proof.
  intros Hdot Hsd Hend. unfold path.visit.
  apply Z.eqb_neq in Hend. rewrite Hend.
  apply Ascii.eqb_neq in Hdot. rewrite Hdot.
  apply Z.eqb_eq in Hsd. rewrite Hsd. reflexivity.
Qed.

(** Without a dot in the characters scanned, no extension starts. *)
Lemma scan_no_dot codes : forall i s,
  (forall c, In c codes -> c <> path.CHAR_DOT) ->
  path.startDot s = -1 ->
  path.startDot (path.scan codes i s) = -1.
Proof.
  induction codes as [|code rest IH]; intros i s Hall Hsd; simpl; [exact Hsd|].
  destruct (Ascii.eqb code path.CHAR_FORWARD_SLASH).
  - destruct (negb (path.matchedSlash s)); [exact Hsd|].
    apply IH; [intros c Hc; apply Hall; now right | exact Hsd].
  - apply IH; [intros c Hc; apply Hall; now right|].
    unfold path.visit.
    assert (Hd : Ascii.eqb code path.CHAR_DOT = false)
      by (apply Ascii.eqb_neq, Hall; now left).
    rewrite Hd.
    destruct (path.end_ s =? -1); cbn [path.startDot];
      apply Z.eqb_eq in Hsd; rewrite Hsd; cbn [negb];
      apply Z.eqb_eq in Hsd; exact Hsd.
Qed.

Lemma extname_no_dot p : occurs "." p = false -> path.extname p = "".
Proof.
  intros H. unfold path.extname.
  rewrite scan_no_dot; [reflexivity| |reflexivity].
  intros c Hc. apply in_rev in Hc. exact (occurs_In _ _ H c Hc).
Qed.

(** X9. A file whose name has no dot has no extension and is
    rejected as of an unsupported type, whatever its size and role. *)
Theorem analyzeDocument_name_without_dot (file : File) (type : string) :
  occurs "." (originalname file) = false ->
  analyzeDocument file type
  = {| Analysis.ok := false;
       Analysis.note := "Unsupported file type (). Please upload PDF or image.";
       Analysis.scoreImpact := -20 |}.
Proof.
  intros H. unfold analyzeDocument. rewrite (extname_no_dot _ H). reflexivity.
Qed.

Lemma analyzeDocument_name_without_dot_witness :
  Analysis.ok (analyzeDocument (mkFile "passport_scan" 500000 "uploads/p")
                               "passport") = false.
Proof.
  rewrite (analyzeDocument_name_without_dot
             (mkFile "passport_scan" 500000 "uploads/p") "passport" eq_refl).
  reflexivity.
Defined.

(** Once a dot, an end and a character before the dot have been seen,
    the rest of the scan keeps the dot and the end. *)
Lemma scan_keeps codes : forall i s,
  path.startDot s <> -1 -> path.end_ s <> -1 -> path.preDotState s <> 0 ->
  path.startDot (path.scan codes i s) = path.startDot s /\
  path.end_ (path.scan codes i s) = path.end_ s /\
  path.preDotState (path.scan codes i s) <> 0.
Proof.
  induction codes as [|code rest IH]; intros i s Hsd Hend Hpre; simpl;
    [repeat split; assumption|].
  destruct (Ascii.eqb code path.CHAR_FORWARD_SLASH).
  - destruct (negb (path.matchedSlash s)); [repeat split; assumption|].
    now apply IH.
  - assert (Hv : path.startDot (path.visit code i s) = path.startDot s /\
                 path.end_ (path.visit code i s) = path.end_ s /\
                 path.preDotState (path.visit code i s) <> 0).
    { unfold path.visit.
      pose proof Hend as Hend'. apply Z.eqb_neq in Hend'. rewrite Hend'.
      pose proof Hsd as Hsd'. apply Z.eqb_neq in Hsd'. rewrite Hsd'.
      cbn [negb].
      destruct (Ascii.eqb code path.CHAR_DOT);
        [destruct (path.preDotState s =? 1)|]; cbn;
        repeat split; try assumption; lia. }
    destruct Hv as (E1 & E2 & E3).
    destruct (IH (i - 1) (path.visit code i s)) as (F1 & F2 & F3);
      [congruence | congruence | assumption|].
    repeat split; congruence.
Qed.

(** The characters of an extension: no separator, no dot.  The first
    one scanned fixes the end. *)
Lemma scan_extension codes : forall i s rest,
  (forall c, In c codes -> c <> path.CHAR_DOT /\ c <> path.CHAR_FORWARD_SLASH) ->
  path.startDot s = -1 -> path.end_ s <> -1 ->
  path.scan (codes ++ rest) i s
  = path.scan rest (i - Z.of_nat (length codes)) s.
Proof.
  induction codes as [|code codes IH]; intros i s rest Hall Hsd Hend.
  - simpl. f_equal. lia.
  - cbn [app path.scan length].
    destruct (Hall code (or_introl eq_refl)) as [Hdot Hslash].
    apply Ascii.eqb_neq in Hslash. rewrite Hslash.
    rewrite visit_plain by assumption.
    rewrite IH; [f_equal; lia| |assumption|assumption].
    intros c Hc. apply Hall. now right.
Qed.

Lemma extname_simple stem c ext :
  c <> "/"%char -> ext <> "" ->
  occurs "." ext = false -> occurs "/" ext = false ->
  path.extname (stem ++ String c (String "." ext)) = String "." ext.
Proof.
  intros Hc Hne Hdot Hslash. unfold path.extname.
  set (p := stem ++ String c (String "." ext)).
  assert (Hlen : String.length p
                 = (String.length stem + 2 + String.length ext)%nat).
  { unfold p. rewrite string_length_app. simpl. lia. }
  assert (Hcodes : rev (list_ascii_of_string p)
            = (rev (list_ascii_of_string ext)
               ++ "."%char :: c :: rev (list_ascii_of_string stem))%list).
  { unfold p. rewrite list_ascii_of_string_app. cbn [list_ascii_of_string].
    rewrite rev_app_distr. cbn [rev]. rewrite <- !app_assoc. reflexivity. }
  rewrite Hcodes.
  (* the extension *)
  destruct ext as [|e ext]; [contradiction|].
  destruct (rev (list_ascii_of_string (String e ext))) as [|l last_codes] eqn:Hrev.
  { apply (f_equal (@length ascii)) in Hrev.
    rewrite length_rev, list_ascii_length in Hrev. discriminate Hrev. }
  assert (Hall : forall x, In x (l :: last_codes) ->
            x <> path.CHAR_DOT /\ x <> path.CHAR_FORWARD_SLASH).
  { intros x Hx. rewrite <- Hrev in Hx. apply in_rev in Hx.
    split; [exact (occurs_In _ _ Hdot x Hx) | exact (occurs_In _ _ Hslash x Hx)]. }
  assert (Hl : length (l :: last_codes) = String.length (String e ext)).
  { rewrite <- Hrev, length_rev. apply list_ascii_length. }
  cbn [app path.scan].
  destruct (Hall l (or_introl eq_refl)) as [Hldot Hlslash].
  apply Ascii.eqb_neq in Hlslash. rewrite Hlslash.
  set (len := Z.of_nat (String.length p)).
  assert (Hfirst : path.visit l (len - 1) path.init
            = {| path.startDot := -1; path.startPart := 0; path.end_ := len;
                 path.matchedSlash := false; path.preDotState := 0 |}).
  { unfold path.visit, path.init. cbn.
    apply Ascii.eqb_neq in Hldot. rewrite Hldot. f_equal. lia. }
  rewrite Hfirst.
  rewrite scan_extension;
    [ | intros x Hx; apply Hall; now right | reflexivity | cbn; lia].
  (* the dot, then the character before it *)
  cbn [path.scan].
  change (Ascii.eqb "." path.CHAR_FORWARD_SLASH) with false. cbv iota.
  assert (Hcs : Ascii.eqb c path.CHAR_FORWARD_SLASH = false)
    by now apply Ascii.eqb_neq.
  rewrite Hcs.
  set (j := len - 1 - 1 - Z.of_nat (length last_codes)).
  assert (Hj : j = Z.of_nat (String.length stem) + 1).
  { unfold j, len. rewrite Hlen. cbn [length String.length] in Hl |- *. lia. }
  assert (Hlenpos : len = Z.of_nat (String.length stem) + 2
                          + Z.of_nat (String.length (String e ext))).
  { unfold len. rewrite Hlen. lia. }
  cbn [String.length] in Hlenpos. clearbody j len.
  set (s2 := path.visit "." j _).
  assert (Hs2 : s2 = {| path.startDot := j; path.startPart := 0;
                        path.end_ := len; path.matchedSlash := false;
                        path.preDotState := 0 |}).
  { unfold s2, path.visit. cbn.
    replace (len =? -1) with false by (symmetry; apply Z.eqb_neq; lia).
    reflexivity. }
  rewrite Hs2. clear s2 Hs2.
  set (s3 := path.visit c (j - 1) _).
  assert (Hs3 : path.startDot s3 = j /\ path.end_ s3 = len
                /\ path.preDotState s3 <> 0).
  { assert (El : (len =? -1) = false) by (apply Z.eqb_neq; lia).
    assert (Ej : (j =? -1) = false) by (apply Z.eqb_neq; lia).
    unfold s3, path.visit. cbn. rewrite El. cbn.
    destruct (Ascii.eqb c path.CHAR_DOT); cbn; rewrite Ej; cbn;
      repeat split; lia. }
  destruct Hs3 as (A1 & A2 & A3).
  destruct (scan_keeps (rev (list_ascii_of_string stem)) (j - 1 - 1) s3)
    as (B1 & B2 & B3); [lia | lia | assumption|].
  set (s4 := path.scan _ _ s3) in *.
  rewrite B1, B2, A1, A2.
  replace (j =? -1) with false by (symmetry; apply Z.eqb_neq; lia).
  replace (len =? -1) with false by (symmetry; apply Z.eqb_neq; lia).
  replace (path.preDotState s4 =? 0) with false
    by (symmetry; apply Z.eqb_neq; assumption).
  replace (j =? len - 1) with false
    by (symmetry; apply Z.eqb_neq; cbn [String.length] in Hlenpos; lia).
  rewrite andb_false_r. cbn [orb andb].
  unfold JsString.slice.
  replace (Z.to_nat j) with (String.length (stem ++ String c "")).
  2:{ rewrite string_length_app. simpl. lia. }
  replace (Z.to_nat (len - j)) with (String.length (String "." (String e ext))).
  2:{ cbn [String.length] in Hlenpos |- *. lia. }
  replace p with ((stem ++ String c "") ++ String "." (String e ext)).
  2:{ unfold p. rewrite string_app_assoc. reflexivity. }
  apply substring_app_right.
Qed.

Lemma occurs_toLowerCase_dot s :
  occurs "." (JsString.toLowerCase s) = occurs "." s.
Proof.
  induction s as [|c s IH]; simpl; [reflexivity|].
  rewrite IH. f_equal. apply lower_char_dot.
Qed.

Lemma occurs_toLowerCase_slash s :
  occurs "/" (JsString.toLowerCase s) = occurs "/" s.
Proof.
  induction s as [|c s IH]; simpl; [reflexivity|].
  rewrite IH. f_equal. apply lower_char_slash.
Qed.

Lemma size_not_small file : 30720 <= size file -> Qlt_bool (sizeKB file) 30 = false.
Proof.
  intros H. apply Qlt_bool_false_iff. rewrite sizeKB_lt_30. lia.
Qed.

(** X10. A file named [stem.ext], where [ext] is [pdf], [jpg], [jpeg]
    or [png] in any mix of upper and lower case and the dot is not the
    first character of the name nor does it follow a [/], is accepted
    as soon as it has 30720 bytes, under every role. *)
Theorem analyzeDocument_accepts_allowed_name (stem : string) (c : ascii)
    (ext : string) (bytes : Z) (tmp : string) (type : string) :
  c <> "/"%char ->
  In (JsString.toLowerCase ext) ["pdf"; "jpg"; "jpeg"; "png"] ->
  30720 <= bytes ->
  Analysis.ok
    (analyzeDocument (mkFile (stem ++ String c (String "." ext)) bytes tmp) type)
  = true.
Proof.
  intros Hc Hext Hsize.
  assert (Hne : ext <> "").
  { intros ->. simpl in Hext. repeat (destruct Hext as [Hext|Hext];
      [discriminate Hext|]). contradiction. }
  assert (Hdot : occurs "." ext = false).
  { rewrite <- occurs_toLowerCase_dot.
    simpl in Hext. repeat (destruct Hext as [<-|Hext]; [reflexivity|]).
    contradiction. }
  assert (Hslash : occurs "/" ext = false).
  { rewrite <- occurs_toLowerCase_slash.
    simpl in Hext. repeat (destruct Hext as [<-|Hext]; [reflexivity|]).
    contradiction. }
  unfold analyzeDocument. cbn [originalname].
  rewrite (extname_simple stem c ext Hc Hne Hdot Hslash).
  cbn [JsString.toLowerCase].
  change (JsString.lower_char ".") with "."%char.
  assert (Hin : includes allowedExt (String "." (JsString.toLowerCase ext)) = true).
  { simpl in Hext. repeat (destruct Hext as [<-|Hext]; [reflexivity|]).
    contradiction. }
  rewrite Hin.
  rewrite (size_not_small (mkFile (stem ++ String c (String "." ext)) bytes tmp)
             Hsize).
  cbn [negb].
  destruct (String.eqb type "passport"); [reflexivity|].
  destruct (String.eqb type "bank"); [reflexivity|].
  destruct (String.eqb type "offer"); reflexivity.
Qed.

Lemma analyzeDocument_accepts_allowed_name_witness :
  Analysis.ok
    (analyzeDocument (mkFile "My Passport.v2.JpEg" 30720 "uploads/p") "passport")
  = true.
Proof.
  apply (analyzeDocument_accepts_allowed_name "My Passport.v" "2"%char "JpEg"
           30720 "uploads/p" "passport").
  - discriminate.
  - vm_compute. auto.
  - lia.
Defined.

(** ** The handler, case by case *)

Lemma analyze_unparsable req :
  body_profile req = Some Unparsable ->
  analyze req
  = ([ConsoleError],
     Normal {| status := 500; body := Error "Internal error analyzing profile" |}).
Proof.
  destruct req as [bp fp fb fo]. cbn [body_profile]. intros ->. reflexivity.
Qed.

Lemma analyze_missing req :
  body_profile req <> Some Unparsable -> slot_missing req ->
  analyze req
  = ([CallCleanupFiles (present_files req)],
     Normal {| status := 400; body := Error missing_documents |}).
Proof.
  unfold slot_missing, present_files.
  destruct req as [bp fp fb fo]. run_handler.
  cbn [body_profile files_passport files_bank files_offer].
  intros Hbp Hmiss.
  destruct bp as [[|j]|]; [congruence|..]; cbn [default from_option];
    destruct (first_file fp) as [passport|];
    destruct (first_file fb) as [bank|];
    destruct (first_file fo) as [offer|];
    try (exfalso; destruct Hmiss as [H|[H|H]]; discriminate H);
    reflexivity.
Qed.

Lemma analyze_null req passport bank offer :
  body_profile req = Some (Parses JsonNull) ->
  first_file (files_passport req) = Some passport ->
  first_file (files_bank req) = Some bank ->
  first_file (files_offer req) = Some offer ->
  analyze req
  = ([ CallAnalyzeDocument passport "passport";
       CallAnalyzeDocument bank "bank";
       CallAnalyzeDocument offer "offer";
       CallComputeScore (assessed passport bank offer); ConsoleError ],
     Normal {| status := 500; body := Error "Internal error analyzing profile" |}).
Proof.
  destruct req as [bp fp fb fo]. run_handler.
  cbn [body_profile files_passport files_bank files_offer].
  intros -> -> -> ->. reflexivity.
Qed.

Lemma analyze_object req passport bank offer :
  (body_profile req = None
   \/ exists profile, body_profile req = Some (Parses (JsonObject profile))) ->
  first_file (files_passport req) = Some passport ->
  first_file (files_bank req) = Some bank ->
  first_file (files_offer req) = Some offer ->
  exists r,
    analyze req
    = ([ CallAnalyzeDocument passport "passport";
         CallAnalyzeDocument bank "bank";
         CallAnalyzeDocument offer "offer";
         CallComputeScore (assessed passport bank offer);
         CallFundsRisk; CallDocsRisk;
         CallCleanupFiles [passport; bank; offer] ],
       Normal {| status := 200; body := Result r |}) /\
    AnalysisResult.twin r
    = {| Twin.name :=
           Js.or (Js.get (request_profile req) "name") (VStr "Applicant");
         Twin.confidence := 80;
         Twin.traits :=
           [ if Js.strict_eq (Js.get (request_profile req) "past_visa") "None"
             then "Low travel history" else "Experienced traveller";
             if 70 <=? AnalysisResult.score r
             then "Low risk profile" else "Medium risk profile" ] |}.
Proof.
  unfold request_profile. destruct req as [bp fp fb fo]. run_handler.
  cbn [body_profile files_passport files_bank files_offer].
  intros [-> | [profile ->]] -> -> ->;
    (eexists; split; [reflexivity|]);
    cbn [AnalysisResult.twin AnalysisResult.score]; reflexivity.
Qed.

(** The four kinds of request. *)
Lemma request_cases req :
  body_profile req = Some Unparsable
  \/ (body_profile req <> Some Unparsable /\ slot_missing req)
  \/ (exists passport bank offer,
        body_profile req = Some (Parses JsonNull) /\
        first_file (files_passport req) = Some passport /\
        first_file (files_bank req) = Some bank /\
        first_file (files_offer req) = Some offer)
  \/ (exists passport bank offer,
        (body_profile req = None
         \/ exists profile, body_profile req = Some (Parses (JsonObject profile))) /\
        first_file (files_passport req) = Some passport /\
        first_file (files_bank req) = Some bank /\
        first_file (files_offer req) = Some offer).
Proof.
  unfold slot_missing.
  destruct (body_profile req) as [[|[|profile]]|]; [now left|..];
    destruct (first_file (files_passport req)) as [passport|];
    destruct (first_file (files_bank req)) as [bank|];
    destruct (first_file (files_offer req)) as [offer|];
    try (right; left; split; [discriminate | tauto]).
  - right; right; left. now exists passport, bank, offer.
  - right; right; right. exists passport, bank, offer. eauto 6.
  - right; right; right. exists passport, bank, offer. eauto 6.
Qed.

(** The twin of a result. *)
Lemma analyze_result_twin req trace st r :
  analyze req = (trace, Normal {| status := st; body := Result r |}) ->
  AnalysisResult.twin r
  = {| Twin.name := Js.or (Js.get (request_profile req) "name") (VStr "Applicant");
       Twin.confidence := 80;
       Twin.traits :=
         [ if Js.strict_eq (Js.get (request_profile req) "past_visa") "None"
           then "Low travel history" else "Experienced traveller";
           if 70 <=? AnalysisResult.score r
           then "Low risk profile" else "Medium risk profile" ] |}.
Proof.
  intros H.
  destruct (request_cases req)
    as [Hu | [[Hp Hm] | [(p & b & o & Hn & Hp & Hb & Ho)
                        | (p & b & o & Hobj & Hp & Hb & Ho)]]].
  - rewrite (analyze_unparsable req Hu) in H. discriminate H.
  - rewrite (analyze_missing req Hp Hm) in H. discriminate H.
  - rewrite (analyze_null req p b o Hn Hp Hb Ho) in H. discriminate H.
  - destruct (analyze_object req p b o Hobj Hp Hb Ho) as (r' & Hr' & Htwin).
    rewrite H in Hr'. injection Hr' as _ _ <-. exact Htwin.
Qed.

Lemma present_files_all req passport bank offer :
  first_file (files_passport req) = Some passport ->
  first_file (files_bank req) = Some bank ->
  first_file (files_offer req) = Some offer ->
  present_files req = [passport; bank; offer] /\ ~ slot_missing req.
Proof.
  unfold present_files, slot_missing. intros -> -> ->. split; [reflexivity|].
  intros [H|[H|H]]; discriminate H.
Qed.


(** ** Temporary files *)

Lemma elem_of_cleanupFiles files : forall (disk : gset string) k,
  k ∈ cleanupFiles files disk
  <-> k ∈ disk /\ (k = "" \/ ~ In k (map file_path files)).
Proof.
  unfold cleanupFiles.
  induction files as [|f files IH]; intros disk k; cbn [foldl map In].
  - tauto.
  - rewrite IH. clear IH.
    destruct (String.eqb_spec (file_path f) "") as [E|E]; cbn [negb andb];
      [|destruct (bool_decide_reflect (file_path f ∈ disk)) as [Hin|Hnin]];
      try rewrite elem_of_difference, elem_of_singleton;
      destruct (decide (k = file_path f)) as [->|Hne];
      intuition congruence.
Qed.

(** X12. [cleanupFiles] removes from the disk exactly the non-empty
    paths of the files it is given: afterwards none of them exists,
    every other path is as before, and cleaning a second time changes
    nothing (a path that no longer exists is skipped, not unlinked). *)
Theorem cleanupFiles_removes (files : list File) (disk : gset string) :
  (forall f, In f files -> file_path f <> "" ->
     file_path f ∉ cleanupFiles files disk) /\
  (forall k, ~ In k (map file_path files) ->
     (k ∈ cleanupFiles files disk <-> k ∈ disk)) /\
  cleanupFiles files (cleanupFiles files disk) = cleanupFiles files disk.
Proof.
  split; [|split].
  - intros f Hf Hne Hin. apply elem_of_cleanupFiles in Hin as [_ [E|Hn]];
      [contradiction|]. apply Hn, in_map, Hf.
  - intros k Hk. rewrite elem_of_cleanupFiles. tauto.
  - apply set_eq. intros k. rewrite !elem_of_cleanupFiles. tauto.
Qed.

Lemma cleanupFiles_removes_witness :
  "uploads/a" ∉ cleanupFiles [mkFile "a.pdf" 1 "uploads/a"]
                             {[ "uploads/a"; "uploads/z" ]}.
Proof.
  apply (proj1 (cleanupFiles_removes [mkFile "a.pdf" 1 "uploads/a"]
                  {[ "uploads/a"; "uploads/z" ]})
           (mkFile "a.pdf" 1 "uploads/a")).
  - now left.
  - discriminate.
Defined.

(** X13. The temporary files of a request are removed when the
    answer is 200 or 400, and only then: after an answer 500 (profile
    text that does not parse, or a [null] profile) the disk is as it
    was, uploaded files included. *)
Theorem analyze_temporary_files (req : Request) (disk : gset string) :
  exists trace resp,
    analyze req = (trace, Normal resp) /\
    (status resp = 500 -> disk_after trace disk = disk) /\
    (status resp <> 500 ->
       disk_after trace disk = cleanupFiles (present_files req) disk /\
       forall f, In f (present_files req) -> file_path f <> "" ->
         file_path f ∉ disk_after trace disk).
Proof.
  assert (Hclean : forall files, 
            forall f, In f files -> file_path f <> "" ->
              file_path f ∉ cleanupFiles files disk).
  { intros files f Hf Hne Hin.
    apply elem_of_cleanupFiles in Hin as [_ [E|Hn]]; [contradiction|].
    apply Hn, in_map, Hf. }
  destruct (request_cases req)
    as [Hu | [[Hp Hm] | [(p & b & o & Hn & Hp & Hb & Ho)
                        | (p & b & o & Hobj & Hp & Hb & Ho)]]].
  - rewrite (analyze_unparsable req Hu). eexists _, _. split; [reflexivity|].
    cbn [status]. split; [reflexivity | intros E; now contradiction E].
  - rewrite (analyze_missing req Hp Hm). eexists _, _. split; [reflexivity|].
    cbn [status]. split; [intros E; discriminate E|]. intros _.
    split; [reflexivity | apply Hclean].
  - rewrite (analyze_null req p b o Hn Hp Hb Ho).
    eexists _, _. split; [reflexivity|].
    cbn [status]. split; [reflexivity | intros E; now contradiction E].
  - destruct (present_files_all req p b o Hp Hb Ho) as [Hfiles _].
    destruct (analyze_object req p b o Hobj Hp Hb Ho) as (r & Hr & _).
    rewrite Hr, Hfiles. eexists _, _. split; [reflexivity|].
    cbn [status]. split; [intros E; discriminate E|]. intros _.
    split; [reflexivity | apply Hclean].
Qed.

Lemma analyze_temporary_files_witness :
  exists trace resp,
    analyze scenario_B = (trace, Normal resp) /\
    disk_after trace {[ "uploads/p"; "uploads/b"; "uploads/o"; "uploads/x" ]}
    = cleanupFiles (present_files scenario_B)
        {[ "uploads/p"; "uploads/b"; "uploads/o"; "uploads/x" ]}.
Proof.
  destruct (analyze_temporary_files scenario_B
              {[ "uploads/p"; "uploads/b"; "uploads/o"; "uploads/x" ]})
    as (trace & resp & Hrun & _ & Hok).
  exists trace, resp. split; [exact Hrun|].
  apply Hok.
  assert (Hst : status resp = 200).
  { assert (E : snd (analyze scenario_B) = Normal resp) by now rewrite Hrun.
    vm_compute in E. injection E as <-. reflexivity. }
  rewrite Hst. discriminate.
Defined.

(** ** What a result holds *)

Lemma scenario_B_answered :
  exists trace r,
    analyze scenario_B = (trace, Normal {| status := 200; body := Result r |}).
Proof. eexists _, _. vm_compute. reflexivity. Qed.


(** X14. The twin of every result has confidence 80 and two traits:
    the first tells whether [past_visa] is "None", the second whether
    the score reaches 70; its name is the profile's [name], or
    "Applicant" when that is missing or empty. *)
Theorem result_twin (req : Request) trace st r :
  analyze req = (trace, Normal {| status := st; body := Result r |}) ->
  let twin := AnalysisResult.twin r in
  let name := Js.get (request_profile req) "name" in
  let past_visa := Js.get (request_profile req) "past_visa" in
  Twin.confidence twin = 80 /\
  (Js.ToBoolean name = true -> Twin.name twin = name) /\
  (Js.ToBoolean name = false -> Twin.name twin = VStr "Applicant") /\
  exists first second,
    Twin.traits twin = [first; second] /\
    (past_visa = VStr "None" -> first = "Low travel history") /\
    (past_visa <> VStr "None" -> first = "Experienced traveller") /\
    (70 <= AnalysisResult.score r -> second = "Low risk profile") /\
    (AnalysisResult.score r < 70 -> second = "Medium risk profile").
Proof.
  intros H twin name past_visa. subst twin name past_visa.
  rewrite (analyze_result_twin _ _ _ _ H). cbn [Twin.confidence Twin.name Twin.traits].
  split; [reflexivity|].
  split; [intros E; unfold Js.or; now rewrite E|].
  split; [intros E; unfold Js.or; now rewrite E|].
  eexists _, _. split; [reflexivity|].
  destruct (strict_eq_spec (Js.get (request_profile req) "past_visa") "None");
    destruct (Z.leb_spec 70 (AnalysisResult.score r));
    repeat split; intros; first [reflexivity | contradiction | lia].
Qed.

Lemma result_twin_witness :
  exists trace r,
    analyze scenario_B = (trace, Normal {| status := 200; body := Result r |}) /\
    Twin.name (AnalysisResult.twin r) = VStr "Applicant" /\
    Twin.confidence (AnalysisResult.twin r) = 80.
Proof.
  destruct scenario_B_answered as (trace & r & H).
  exists trace, r. split; [exact H|].
  destruct (result_twin scenario_B trace 200 r H) as (Hc & _ & Hn & _).
  split; [apply Hn; reflexivity | exact Hc].
Defined.

(** X15. Band, Finances risk and risk trait of a result agree: the
    Finances risk is 60 exactly for the bands "Unlikely" and
    "Borderline"; a Finances risk of 20 comes only with "Highly
    likely" and the trait "Low risk profile"; and that trait comes
    only with "Likely" or "Highly likely". *)
Theorem result_band_risk_trait (req : Request) trace st r :
  analyze req = (trace, Normal {| status := st; body := Result r |}) ->
  exists finances trait,
    head (AnalysisResult.risk r)
    = Some {| RiskItem.label := "Finances"; RiskItem.value := finances |} /\
    last (Twin.traits (AnalysisResult.twin r)) = Some trait /\
    (finances = 60 <->
       AnalysisResult.plain r = "Unlikely" \/ AnalysisResult.plain r = "Borderline") /\
    (finances = 20 ->
       AnalysisResult.plain r = "Highly likely" /\ trait = "Low risk profile") /\
    (trait = "Low risk profile" ->
       AnalysisResult.plain r = "Likely" \/ AnalysisResult.plain r = "Highly likely").
Proof.
  intros H. rewrite (analyze_result_twin _ _ _ _ H).
  apply analyze_result_inv in H
    as (passport & bank & offer & _ & _ & _ & _ & _ & Hs & Hp & _ & _ & _ & Hr).
  rewrite Hr, Hp, Hs. cbn [head last Twin.traits].
  eexists _, _. split; [reflexivity|]. split; [reflexivity|].
  change (ScoreInfo.plain (computeScore ?p ?d))
    with (plain_of (ScoreInfo.score (computeScore p d))).
  generalize (ScoreInfo.score
                (computeScore (request_profile req) (assessed passport bank offer))).
  intros s. unfold fundsRisk, plain_of.
  destruct (Z.leb_spec 80 s); destruct (Z.leb_spec 75 s);
    destruct (Z.leb_spec 70 s); destruct (Z.leb_spec 60 s);
    destruct (Z.leb_spec 45 s); try lia;
    (split;
     [split;
      [intros E; first [discriminate E | (left; reflexivity) | (right; reflexivity)]
      |intros [E|E]; first [discriminate E | reflexivity]]|]);
    (split; [intros E; first [discriminate E | (split; reflexivity)]|]);
    intros E;
    first [discriminate E | (left; reflexivity) | (right; reflexivity)].
Qed.

Lemma result_band_risk_trait_witness :
  exists trace r,
    analyze scenario_B = (trace, Normal {| status := 200; body := Result r |}) /\
    exists finances trait,
      head (AnalysisResult.risk r)
      = Some {| RiskItem.label := "Finances"; RiskItem.value := finances |} /\
      last (Twin.traits (AnalysisResult.twin r)) = Some trait /\
      (finances = 60 <->
         AnalysisResult.plain r = "Unlikely" \/ AnalysisResult.plain r = "Borderline").
Proof.
  destruct scenario_B_answered as (trace & r & H).
  exists trace, r. split; [exact H|].
  destruct (result_band_risk_trait scenario_B trace 200 r H)
    as (f & t & H1 & H2 & H3 & _).
  exists f, t. split; [exact H1|]. split; [exact H2 | exact H3].
Defined.

(** X16. The three country scores of a result stay between 0 and 100
    and keep their order around the aggregate score: UK is never
    above it, Canada never below it, and Australia never below
    Canada. *)
Theorem result_countries_order (req : Request) trace st r :
  analyze req = (trace, Normal {| status := st; body := Result r |}) ->
  exists canada uk australia,
    AnalysisResult.countries r = [canada; uk; australia] /\
    0 <= Country.score uk <= AnalysisResult.score r /\
    AnalysisResult.score r <= Country.score canada /\
    Country.score canada <= Country.score australia <= 100.
Proof.
  intros H. pose proof (analyze_score_range _ _ _ _ H) as Hrange.
  apply analyze_result_inv in H
    as (passport & bank & offer & _ & _ & _ & _ & _ & Hs & _ & _ & _ & Hc & _).
  rewrite Hc, <- Hs. eexists _, _, _. split; [reflexivity|].
  cbn [Country.score]. lia.
Qed.

Lemma result_countries_order_witness :
  exists trace r,
    analyze scenario_B = (trace, Normal {| status := 200; body := Result r |}) /\
    exists canada uk australia,
      AnalysisResult.countries r = [canada; uk; australia] /\
      Country.score uk <= AnalysisResult.score r <= Country.score canada.
Proof.
  destruct scenario_B_answered as (trace & r & H).
  exists trace, r. split; [exact H|].
  destruct (result_countries_order scenario_B trace 200 r H)
    as (c & u & a & H1 & H2 & H3 & _).
  exists c, u, a. split; [exact H1 | lia].
Defined.

(** X17. The documents of a result are three, named "Passport",
    "Bank statement" and "Offer letter" in this order, and each
    carries the verdict and the note of [analyzeDocument] on the first
    file of its own slot, under its own role. *)
Theorem result_docs_by_slot (req : Request) trace st r :
  analyze req = (trace, Normal {| status := st; body := Result r |}) ->
  exists passport bank offer,
    first_file (files_passport req) = Some passport /\
    first_file (files_bank req) = Some bank /\
    first_file (files_offer req) = Some offer /\
    map (fun d : gmap string jsval => (d !! "name", d !! "ok", d !! "note"))
        (AnalysisResult.docs r)
    = map (fun '(name, a) =>
             (Some (VStr name), Some (VBool (Analysis.ok a)),
              Some (VStr (Analysis.note a))))
          [ ("Passport", analyzeDocument passport "passport");
            ("Bank statement", analyzeDocument bank "bank");
            ("Offer letter", analyzeDocument offer "offer") ].
Proof.
  intros H.
  apply analyze_result_inv in H
    as (passport & bank & offer & Hp & Hb & Ho & _ & _ & _ & _ & _ & Hd & _).
  exists passport, bank, offer. repeat (split; [assumption|]).
  rewrite Hd. unfold assessed. cbn [map].
  rewrite !rest_of_name, !rest_of_ok, !rest_of_note. reflexivity.
Qed.

Lemma result_docs_by_slot_witness :
  exists trace r,
    analyze scenario_B = (trace, Normal {| status := 200; body := Result r |}) /\
    map (fun d : gmap string jsval => (d !! "name", d !! "ok"))
        (AnalysisResult.docs r)
    = [ (Some (VStr "Passport"), Some (VBool true));
        (Some (VStr "Bank statement"), Some (VBool false));
        (Some (VStr "Offer letter"), Some (VBool true)) ].
Proof.
  destruct scenario_B_answered as (trace & r & H).
  exists trace, r. split; [exact H|].
  destruct (result_docs_by_slot scenario_B trace 200 r H)
    as (p & b & o & Hp & Hb & Ho & Hd).
  vm_compute in Hp, Hb, Ho.
  injection Hp as <-. injection Hb as <-. injection Ho as <-.
  apply (f_equal (map (fun t : option jsval * option jsval * option jsval =>
                         (fst (fst t), snd (fst t))))) in Hd.
  rewrite map_map in Hd. cbn [fst snd] in Hd.
  etransitivity; [|etransitivity; [exact Hd|]]; vm_compute; reflexivity.
Defined.

(** ** What the handler does not look at *)

Lemma computeScore_insert_other (profile : gmap string jsval) key v docs :
  ~ In key profile_keys_read ->
  computeScore (<[key := v]> profile) docs = computeScore profile docs.
Proof.
  intros Hk. unfold computeScore.
  rewrite !get_insert_ne
    by (intros ->; apply Hk; cbn; tauto).
  reflexivity.
Qed.

(** X18. Only [name], [funds], [education], [past_visa] and [purpose]
    of the profile are read: setting any other property
    ([dest_country], [age], [passport_country], ...) to any value
    changes neither the answer nor the calls made. *)
Theorem analyze_ignores_other_keys (req : Request)
    (profile : gmap string jsval) (key : string) (v : jsval) :
  ~ In key profile_keys_read ->
  analyze (with_profile req (<[key := v]> profile))
  = analyze (with_profile req profile).
Proof.
  intros Hk.
  assert (Hget : forall k, In k profile_keys_read ->
            Js.get (<[key := v]> profile) k = Js.get profile k).
  { intros k Hin. apply get_insert_ne. intros ->. contradiction. }
  destruct req as [bp fp fb fo]. unfold with_profile. run_handler.
  cbn [body_profile files_passport files_bank files_offer].
  destruct (first_file fp) as [passport|]; [|reflexivity].
  destruct (first_file fb) as [bank|]; [|reflexivity].
  destruct (first_file fo) as [offer|]; [|reflexivity].
  cbn [default from_option id mbind mret M_bind M_ret List.app].
  rewrite (computeScore_insert_other profile key v _ Hk).
  rewrite !(Hget "name"), !(Hget "past_visa"), !(Hget "purpose")
    by (cbn; tauto).
  reflexivity.
Qed.

Lemma analyze_ignores_other_keys_witness :
  analyze (with_profile scenario_B
             (<["dest_country" := VStr "Germany"]>
                (<["funds" := VNum 20000]> (<["past_visa" := VStr "None"]> ∅))))
  = analyze scenario_B.
Proof.
  rewrite (analyze_ignores_other_keys scenario_B
             (<["funds" := VNum 20000]> (<["past_visa" := VStr "None"]> ∅))
             "dest_country" (VStr "Germany")).
  - reflexivity.
  - intros H. cbn in H. repeat (destruct H as [H|H]; [discriminate H|]).
    contradiction.
Defined.

(** ** Scores come in steps of five *)

Lemma analyzeDocument_impact_divisible file type :
  (5 | Analysis.scoreImpact (analyzeDocument file type)).
Proof.
  unfold analyzeDocument.
  destruct (negb _); [exists (-4); reflexivity|].
  destruct (Qlt_bool _ _); [exists (-3); reflexivity|].
  destruct (String.eqb type "passport"); [exists 3; reflexivity|].
  destruct (String.eqb type "bank"); [exists 4; reflexivity|].
  destruct (String.eqb type "offer"); [exists 3|exists 1]; reflexivity.
Qed.

Lemma clamp_divisible x : (5 | x) -> (5 | Z.max 0 (Z.min 100 x)).
Proof.
  intros Hx.
  destruct (Z.max_spec 0 (Z.min 100 x)) as [[_ ->]|[_ ->]];
    [|exists 0; reflexivity].
  destruct (Z.min_spec 100 x) as [[_ ->]|[_ ->]]; [exists 20; reflexivity|exact Hx].
Qed.

Lemma funds_adjustment_divisible funds : (5 | funds_adjustment funds).
Proof.
  unfold funds_adjustment.
  destruct (Js.gt funds 150000); [exists 2; reflexivity|].
  destruct (Js.lt funds 50000); [exists (-2)|exists 0]; reflexivity.
Qed.

Lemma education_adjustment_divisible v : (5 | education_adjustment v).
Proof.
  unfold education_adjustment.
  destruct (_ || _); [exists 1|exists 0]; reflexivity.
Qed.

Lemma past_visa_adjustment_divisible v : (5 | past_visa_adjustment v).
Proof.
  unfold past_visa_adjustment.
  destruct (Js.strict_eq v "3+"); destruct (Js.strict_eq v "None");
    [exists 0|exists 1|exists (-1)|exists 0]; reflexivity.
Qed.

(** X19. The score of every result is a multiple of 5: the base, the
    impacts of the three documents and the profile adjustments all
    are, and so are the bounds of the clamp. *)
Theorem result_score_multiple_of_5 (req : Request) trace st r :
  analyze req = (trace, Normal {| status := st; body := Result r |}) ->
  (5 | AnalysisResult.score r).
Proof.
  intros H.
  apply analyze_result_inv in H
    as (passport & bank & offer & _ & _ & _ & _ & _ & Hs & _).
  rewrite Hs, computeScore_score. apply clamp_divisible.
  unfold assessed, total_impact. cbn [foldr doc_entry DocResult.scoreImpact].
  apply Z.divide_add_r; [|apply past_visa_adjustment_divisible].
  apply Z.divide_add_r; [|apply education_adjustment_divisible].
  apply Z.divide_add_r; [|apply funds_adjustment_divisible].
  apply Z.divide_add_r; [exists 10; reflexivity|].
  repeat (apply Z.divide_add_r; [apply analyzeDocument_impact_divisible|]).
  exists 0; reflexivity.
Qed.

Lemma result_score_multiple_of_5_witness :
  exists trace r,
    analyze scenario_B = (trace, Normal {| status := 200; body := Result r |}) /\
    (5 | AnalysisResult.score r).
Proof.
  destruct scenario_B_answered as (trace & r & H).
  exists trace, r. split; [exact H|].
  exact (result_score_multiple_of_5 scenario_B trace 200 r H).
Defined.

(** * The front end *)

Section FrontEnd.
Import App.

Lemma clamp_fixed (v a b : Q) : (a <= v <= b)%Q -> (clamp v a b == v)%Q.
Proof.
  intros [Ha Hb]. unfold clamp.
  destruct (Q.max_spec a (Qmin b v)) as [[H1 ->]|[H1 ->]];
    destruct (Q.min_spec b v) as [[H2 H3]|[H2 H3]];
    rewrite ?H3 in *; lra.
Qed.



(** X21. The gauge draws the score of a result of the local engine as
    it is: clamping a score that is already between 0 and 100 does
    not change it. *)
Theorem gauge_value_of_result (req : Request) trace st r :
  analyze req = (trace, Normal {| status := st; body := Result r |}) ->
  (gauge_value (inject_Z (AnalysisResult.score r))
   == inject_Z (AnalysisResult.score r))%Q.
Proof.
  intros H. apply analyze_score_range in H as [H0 H100].
  unfold gauge_value. apply clamp_fixed.
  split.
  - change 0%Q with (inject_Z 0). rewrite <- Zle_Qle. exact H0.
  - change 100%Q with (inject_Z 100). rewrite <- Zle_Qle. exact H100.
Qed.

Lemma gauge_value_of_result_witness :
  exists trace r,
    analyze scenario_B = (trace, Normal {| status := 200; body := Result r |}) /\
    (App.gauge_value (inject_Z (AnalysisResult.score r))
     == inject_Z (AnalysisResult.score r))%Q.
Proof.
  destruct scenario_B_answered as (trace & r & H).
  exists trace, r. split; [exact H|].
  exact (gauge_value_of_result scenario_B trace 200 r H).
Defined.

Lemma Qlt_bool_inject a b : Qlt_bool (inject_Z a) (inject_Z b) = (a <? b).
Proof.
  destruct (Z.ltb_spec a b) as [H|H].
  - apply Qlt_bool_iff. now rewrite <- Zlt_Qlt.
  - apply Qlt_bool_false_iff. rewrite <- Zlt_Qlt. lia.
Qed.

(** X22. Gauge colour against band, for an integer score: the gauge
    is green exactly from 76 and red exactly up to 50.  A green gauge
    therefore always goes with the band "Highly likely", but not the
    other way round (at 75 the band is "Highly likely" and the gauge
    amber), and a red gauge never goes with "Likely" or "Highly
    likely". *)
Theorem gauge_color_and_band (s : Z) :
  (gauge_color (inject_Z s) = "#16a34a" <-> 76 <= s) /\
  (gauge_color (inject_Z s) = "#ef4444" <-> s <= 50) /\
  (gauge_color (inject_Z s) = "#16a34a" -> plain_of s = "Highly likely") /\
  (gauge_color (inject_Z s) = "#ef4444" ->
     plain_of s = "Unlikely" \/ plain_of s = "Borderline") /\
  (s = 75 -> plain_of s = "Highly likely" /\ gauge_color (inject_Z s) = "#f59e0b").
Proof.
  unfold gauge_color, plain_of.
  change 75%Q with (inject_Z 75). change 50%Q with (inject_Z 50).
  rewrite !Qlt_bool_inject.
  destruct (Z.ltb_spec 75 s); destruct (Z.ltb_spec 50 s);
    destruct (Z.leb_spec 75 s); destruct (Z.leb_spec 60 s);
    destruct (Z.leb_spec 45 s); try lia;
    (split; [split; intros E; first [reflexivity | lia | discriminate E]|]);
    (split; [split; intros E; first [reflexivity | lia | discriminate E]|]);
    (split; [intros E; first [reflexivity | discriminate E]|]);
    (split; [intros E; first [discriminate E | (left; reflexivity)
                             | (right; reflexivity)]|]);
    intros E; first [lia | (split; reflexivity)].
Qed.

Lemma gauge_color_and_band_witness :
  plain_of 80 = "Highly likely" /\ plain_of 40 = "Unlikely".
Proof.
  split.
  - apply (proj1 (proj2 (proj2 (gauge_color_and_band 80)))). reflexivity.
  - destruct (proj1 (proj2 (proj2 (proj2 (gauge_color_and_band 40)))))
      as [E|E]; [reflexivity | exact E | discriminate E].
Defined.

(** ** The badge of a file *)

Lemma split_plain sep s : occurs sep s = false -> split sep s = [s].
Proof.
  induction s as [|c r IH]; [reflexivity|].
  cbn [occurs split]. intros H. apply orb_false_elim in H as [Hc Hr].
  rewrite Hc, (IH Hr). reflexivity.
Qed.

Lemma split_not_nil sep s : split sep s <> [].
Proof.
  destruct s as [|c r]; cbn [split]; [discriminate|].
  destruct (Ascii.eqb c sep); [discriminate|].
  destruct (split sep r); discriminate.
Qed.

Lemma last_split_after sep stem ext :
  occurs sep ext = false ->
  last (split sep (stem ++ String sep ext)) = Some ext.
Proof.
  intros H. induction stem as [|c r IH].
  - change ("" ++ String sep ext) with (String sep ext).
    cbn [split]. rewrite Ascii.eqb_refl, (split_plain _ _ H).
    reflexivity.
  - change (String c r ++ String sep ext) with (String c (r ++ String sep ext)).
    cbn [split].
    destruct (split sep (r ++ String sep ext)) as [|seg segs] eqn:E;
      [discriminate IH|].
    destruct segs as [|seg' segs].
    + (* a single segment would hold the separator *)
      exfalso.
      assert (Hlen : forall pre,
                (2 <= length (split sep (pre ++ String sep ext)))%nat).
      { clear. intros pre. induction pre as [|x pre IHpre].
        - change ("" ++ String sep ext) with (String sep ext).
          cbn [split]. rewrite Ascii.eqb_refl.
          pose proof (split_not_nil sep ext).
          destruct (split sep ext); [contradiction|cbn; lia].
        - change (String x pre ++ String sep ext)
            with (String x (pre ++ String sep ext)).
          cbn [split]. destruct (Ascii.eqb x sep); [cbn in *; lia|].
          destruct (split sep (pre ++ String sep ext)); cbn in *; lia. }
      specialize (Hlen r). rewrite E in Hlen. cbn in Hlen. lia.
    + destruct (Ascii.eqb c sep); exact IH.
Qed.

(** X30. The badge shown for a file and the extension the local
    engine checks are the same thing for a name [stem.ext]: the
    badge is [ext] in upper case and the extension is [.ext].  For a
    name without dot they part: the badge is the whole name in upper
    case, the extension is empty. *)
Theorem badge_and_extension (name : string) :
  (forall stem c ext,
     name = stem ++ String c (String "." ext) ->
     c <> "/"%char -> ext <> "" ->
     occurs "." ext = false -> occurs "/" ext = false ->
     badge name = Some (toUpperCase ext) /\ path.extname name = String "." ext) /\
  (occurs "." name = false ->
     badge name = Some (toUpperCase name) /\ path.extname name = "").
Proof.
  split.
  - intros stem c ext -> Hc Hne Hdot Hslash. split.
    + unfold badge.
      change (stem ++ String c (String "." ext))
        with (stem ++ (String c "" ++ String "." ext)).
      rewrite <- string_app_assoc, (last_split_after "." _ ext Hdot).
      reflexivity.
    + now apply extname_simple.
  - intros H. split; [|now apply extname_no_dot].
    unfold badge. now rewrite (split_plain _ _ H).
Qed.

Lemma badge_and_extension_witness :
  badge "scan.v2.pdf" = Some "PDF" /\ path.extname "scan.v2.pdf" = ".pdf".
Proof.
  apply (proj1 (badge_and_extension "scan.v2.pdf") "scan.v" "2"%char "pdf");
    first [reflexivity | discriminate].
Defined.

(** ** Interview practice *)

Lemma session_snoc turns turn st :
  session (turns ++ [turn]) st
  = submit (snd turn) (type (fst turn) (session turns st)).
Proof. unfold session. now rewrite foldl_app. Qed.

Lemma ask_defined h : exists question, ask h = Some question.
Proof.
  unfold ask. apply lookup_lt_is_Some_2.
  apply Nat.mod_upper_bound. discriminate.
Qed.

(** X23. In a session started from the initial state, one exchange
    is recorded per submitted answer, in order; the [i]-th one holds
    the [i]-th answer and the question number [i mod 3], which is
    always defined: the three questions are asked in turn, over and
    over. *)
Theorem session_history (turns : list (string * Q)) :
  let h := history (session turns initial) in
  length h = length turns /\
  (forall i e, h !! i = Some e ->
     q e = questions !! (i mod 3)%nat /\
     (exists question, q e = Some question) /\
     Some (a e) = fst <$> turns !! i).
Proof.
  induction turns as [|turn turns IH] using rev_ind.
  - split; [reflexivity|]. intros i e H. discriminate H.
  - cbn zeta in *. rewrite session_snoc. destruct IH as [Hlen IH].
    cbn [submit type history answer]. rewrite !length_app, Hlen. cbn [length].
    split; [reflexivity|].
    intros i e He.
    destruct (decide (i < length turns)%nat) as [Hlt|Hge].
    + rewrite lookup_app_l in He by lia.
      rewrite lookup_app_l by lia. now apply IH.
    + assert (i = length turns) as ->.
      { apply lookup_lt_Some in He. rewrite length_app, Hlen in He.
        cbn [length] in He. lia. }
      rewrite list_lookup_middle in He by (symmetry; exact Hlen).
      injection He as <-. cbn [q a].
      rewrite list_lookup_middle by reflexivity. cbn [fmap option_fmap option_map fst].
      split; [|split; [apply ask_defined | reflexivity]].
      unfold ask. now rewrite Hlen.
Qed.

(** X24. The score of the mock feedback is an integer from 5 to 9,
    whatever is answered: 10 is never given. *)
Theorem submit_score_range (rand : Q) (st : Interview) :
  (0 <= rand < 1)%Q ->
  exists fb, feedback (submit rand st) = Some fb /\ 5 <= score fb <= 9.
Proof.
  intros [H0 H1]. eexists. split; [reflexivity|]. cbn [score].
  assert (Hlo : 0 <= Qfloor (rand * 5)).
  { change 0 with (Qfloor 0). apply Qfloor_resp_le. lra. }
  assert (Hhi : Qfloor (rand * 5) < 5).
  { pose proof (Qfloor_le (rand * 5)) as Hf.
    rewrite Zlt_Qlt. change (inject_Z 5) with 5%Q. lra. }
  lia.
Qed.

Lemma submit_score_range_witness :
  exists fb, feedback (submit (999 # 1000) initial) = Some fb /\ 5 <= score fb <= 9.
Proof.
  apply submit_score_range. split; [discriminate | reflexivity].
Defined.

End FrontEnd.

(** * The generative pathway *)

Section GenerativePathway.
Import Gemini.

(** ** Cleaning the reply *)

Lemma prefix_backticks2 r :
  String.prefix "``" r = false ->
  String.prefix "``" (remove_from fence 0 r) = false.
Proof.
  destruct r as [|c1 r1]; [reflexivity|]. cbn [remove_from String.prefix fence].
  destruct (ascii_dec "`" c1) as [<-|Hc1].
  2:{ intros _. cbn [String.prefix]. destruct (ascii_dec "`" c1); [contradiction|reflexivity]. }
  destruct r1 as [|c2 r2]; [intros _; reflexivity|].
  cbn [String.prefix].
  destruct (ascii_dec "`" c2) as [<-|Hc2];
    [destruct r2; intros H; discriminate H|].
  intros _. unfold fence. cbn [String.prefix remove_from].
  destruct (ascii_dec "`" "`") as [_|Hn]; [|now contradiction Hn].
  destruct (ascii_dec "`" c2); [contradiction|].
  cbn [String.prefix].
  destruct (ascii_dec "`" c2); [contradiction|reflexivity].
Qed.

Lemma remove_from_no_fence s : forall skip,
  contains fence (remove_from fence skip s) = false.
Proof.
  induction s as [|c r IH]; intros skip; [reflexivity|].
  cbn [remove_from]. destruct skip as [|k]; [|apply IH].
  destruct (String.prefix fence (String c r)) eqn:E; [apply IH|].
  cbn [contains]. rewrite IH, orb_false_r.
  cbn [String.prefix fence] in *.
  destruct (ascii_dec "`" c); [|reflexivity].
  now apply prefix_backticks2.
Qed.

Lemma contains_trimStart sub s :
  contains sub s = false -> contains sub (Js.trimStart s) = false.
Proof.
  induction s as [|c r IH]; [intros H; exact H|].
  cbn [Js.trimStart]. destruct (Js.isWhiteSpace c); [|intros H; exact H].
  cbn [contains]. intros H. apply orb_false_elim in H as [_ H]. now apply IH.
Qed.

Lemma prefix_trimEnd sub s :
  String.prefix sub (trimEnd s) = true -> String.prefix sub s = true.
Proof.
  revert sub. induction s as [|c r IH]; intros sub; [intros H; exact H|].
  cbn [trimEnd].
  destruct (Js.isWhiteSpace c && String.eqb (trimEnd r) "").
  - destruct sub; [reflexivity | intros H; discriminate H].
  - destruct sub as [|x sub]; [reflexivity|]. cbn [String.prefix].
    destruct (ascii_dec x c); [apply IH | intros H; exact H].
Qed.

Lemma contains_trimEnd sub s :
  contains sub s = false -> contains sub (trimEnd s) = false.
Proof.
  induction s as [|c r IH]; [intros H; exact H|].
  intros H. cbn [contains] in H. apply orb_false_elim in H as [Hp Hc].
  destruct (contains sub (trimEnd (String c r))) eqn:E; [|reflexivity].
  exfalso. cbn [trimEnd] in E.
  destruct (Js.isWhiteSpace c && String.eqb (trimEnd r) "") eqn:Ew.
  - cbn [contains] in E. rewrite orb_false_r in E.
    destruct sub; [discriminate Hp | discriminate E].
  - cbn [contains] in E. apply orb_prop in E as [E|E].
    + assert (String.prefix sub (String c r) = true) as Hp'.
      { apply prefix_trimEnd. cbn [trimEnd]. now rewrite Ew. }
      congruence.
    + rewrite (IH Hc) in E. discriminate E.
Qed.

(** X25. However the reply of the model is fenced, no Markdown
    fence (three back quotes) is left in the text handed to
    [JSON.parse]. *)
Theorem cleanText_no_fence (text : string) :
  contains "```" (cleanText text) = false.
Proof.
  unfold cleanText, trim, remove_all.
  apply contains_trimEnd, contains_trimStart, remove_from_no_fence.
Qed.

Lemma remove_from_plain pat c0 body rest :
  occurs "`" body = false ->
  remove_from (String "`" (String c0 pat)) 0 (body ++ rest)
  = body ++ remove_from (String "`" (String c0 pat)) 0 rest.
Proof.
  induction body as [|c r IH]; [reflexivity|].
  cbn [occurs]. intros H. apply orb_false_elim in H as [Hc Hr].
  change (String c r ++ rest) with (String c (r ++ rest)).
  cbn [remove_from String.prefix].
  destruct (ascii_dec "`" c) as [<-|Hne]; [discriminate Hc|].
  rewrite (IH Hr). reflexivity.
Qed.

Lemma prefix_nil s : String.prefix "" s = true.
Proof. destruct s; reflexivity. Qed.

Lemma remove_json_fence_matched rest :
  remove_from "```json" 0 ("```json" ++ rest) = remove_from "```json" 0 rest.
Proof.
  change ("```json" ++ rest)
    with (String "`" (String "`" (String "`" (String "j" (String "s"
            (String "o" (String "n" rest))))))).
  cbn [remove_from]. 
  assert (E : String.prefix "```json"
            (String "`" (String "`" (String "`" (String "j" (String "s"
               (String "o" (String "n" rest))))))) = true).
  { cbn. apply prefix_nil. }
  rewrite E. reflexivity.
Qed.

(** X26. A reply wrapped in a [json] fence is unwrapped: when the
    text between the opening and the closing fence holds no back
    quote, what is parsed is that text, trimmed.  A reply without any
    back quote is only trimmed. *)
Theorem cleanText_unwraps (inner : string) :
  occurs "`" inner = false ->
  cleanText ("```json" ++ (inner ++ "```")) = trim inner /\
  cleanText inner = trim inner.
Proof.
  intros H. unfold cleanText, remove_all, json_fence, fence. split.
  - rewrite remove_json_fence_matched.
    rewrite (remove_from_plain "`json" "`" inner "```" H).
    change (remove_from "```json" 0 "```") with "```".
    rewrite (remove_from_plain "`" "`" inner "```" H).
    change (remove_from "```" 0 "```") with "".
    now rewrite (string_app_nil_r inner).
  - rewrite <- (string_app_nil_r inner) at 1.
    rewrite (remove_from_plain "`json" "`" inner "" H).
    cbn [remove_from].
    rewrite (remove_from_plain "`" "`" inner "" H). cbn [remove_from].
    now rewrite string_app_nil_r.
Qed.

Lemma cleanText_unwraps_witness :
  cleanText ("```json" ++ ("{}" ++ "```")) = "{}".
Proof.
  rewrite (proj1 (cleanText_unwraps "{}" eq_refl)). reflexivity.
Defined.

(** ** The handler *)

Section Answers.
Context {J : Type} (JSON_parse : string -> option J).

Lemma configured_dec key :
  (configured key /\ Js.ToBoolean (from_option VStr VUndefined key) = true)
  \/ (~ configured key /\ Js.ToBoolean (from_option VStr VUndefined key) = false).
Proof.
  destruct key as [k|]; cbn.
  - destruct (String.eqb_spec k "") as [->|Hne]; cbn.
    + right. split; [|reflexivity]. intros (k & [= <-] & Hk). contradiction.
    + left. split; [|reflexivity]. now exists k.
  - right. split; [|reflexivity]. intros (k & H & _). discriminate H.
Qed.

(** X27. The model is called only when a key is configured and at
    least one file was uploaded, and then exactly once.  Without a
    key the answer is 500 whether files came or not; with a key and
    without files it is 400. *)
Theorem analyze_calls_model (key : option string) (req : Request)
    (answer : reply) :
  let trace := fst (analyze J JSON_parse key req answer) in
  let resp := snd (analyze J JSON_parse key req answer) in
  let with_files := exists f fs, files req = Some (f :: fs) in
  ((exists url, In (Fetch url) trace) <-> configured key /\ with_files) /\
  (length (List.filter (fun e => match e with Fetch _ => true | _ => false end)
                       trace) <= 1)%nat /\
  (~ configured key ->
     resp = {| status := 500;
               body := Error _ "Server configuration error: GEMINI_API_KEY is missing." |}) /\
  (configured key -> ~ with_files ->
     resp = {| status := 400; body := Error _ "No files uploaded" |}).
Proof.
  cbn zeta. unfold analyze.
  destruct (configured_dec key) as [[Hk ->]|[Hk ->]]; cbn [negb].
  - destruct (files req) as [[|f fs]|] eqn:Hf.
    + cbn [fst snd]. split; [|split; [|split]].
      * split; [intros [url []] | intros [_ (f & fs & E)]; discriminate E].
      * cbn. lia.
      * intros Hn. contradiction.
      * intros _ _. reflexivity.
    + assert (Hw : exists f0 fs0, Some (f :: fs) = Some (f0 :: fs0))
        by (exists f, fs; reflexivity).
      destruct answer as [m|s t e|text];
        [| |destruct (JSON_parse (cleanText text))];
        cbn [fst snd app]; (split; [|split; [|split]]);
        first
          [ (split; [intros _; split; [exact Hk | exact Hw]
                    | intros _; exists (endpoint (trim (default "" key)));
                      right; right; left; reflexivity])
          | (cbn; lia)
          | (intros Hn; contradiction)
          | (intros _ Hn; contradiction) ].
    + cbn [fst snd]. split; [|split; [|split]].
      * split; [intros [url []] | intros [_ (f & fs & E)]; discriminate E].
      * cbn. lia.
      * intros Hn. contradiction.
      * intros _ _. reflexivity.
  - cbn [fst snd]. split; [|split; [|split]].
    + split; [intros [url []] | intros [Hc _]; contradiction].
    + cbn. lia.
    + intros _. reflexivity.
    + intros Hc. contradiction.
Qed.

(** X28. The key is checked as it is and sent trimmed: the address
    called ends with the trimmed key, so that a key made of white
    space only passes the check and is sent as the empty key. *)
Theorem analyze_sends_trimmed_key (k : string) (req : Request)
    (answer : reply) :
  k <> "" -> (exists f fs, files req = Some (f :: fs)) ->
  In (Fetch (endpoint (trim k)))
     (fst (analyze J JSON_parse (Some k) req answer)) /\
  (trim k = "" ->
     In (Fetch "https://generativelanguage.googleapis.com/v1beta/models/gemini-flash-latest:generateContent?key=")
        (fst (analyze J JSON_parse (Some k) req answer))).
Proof.
  intros Hk (f & fs & Hf).
  assert (Hin : In (Fetch (endpoint (trim k)))
                   (fst (analyze J JSON_parse (Some k) req answer))).
  { unfold analyze. cbn [from_option Js.ToBoolean default].
    apply String.eqb_neq in Hk. rewrite Hk, Hf. cbn [negb].
    destruct answer as [m|s t e|text];
      [| |destruct (JSON_parse (cleanText text))];
      cbn [fst app]; right; right; left; reflexivity. }
  split; [exact Hin|]. intros Ht. rewrite Ht in Hin. exact Hin.
Qed.

(** X29. Once the model has been called, the answer is 200 exactly
    when the reply holds a text whose cleaned form parses, and its
    body is then the parsed value as it is; every other reply is
    answered 500, and a text that does not parse is sent back
    uncleaned as [raw]. *)
Theorem analyze_answer (key : option string) (req : Request)
    (answer : reply) :
  configured key -> (exists f fs, files req = Some (f :: fs)) ->
  let resp := snd (analyze J JSON_parse key req answer) in
  (status J resp = 200 <->
     exists text jsonData,
       answer = Candidate text /\
       JSON_parse (cleanText text) = Some jsonData /\
       body J resp = Data J jsonData) /\
  (status J resp = 200 \/ status J resp = 500) /\
  (forall text,
     answer = Candidate text -> JSON_parse (cleanText text) = None ->
     body J resp = Failed J "Failed to process analysis results" text).
Proof.
  intros Hc (f & fs & Hf). cbn zeta. unfold analyze.
  destruct (configured_dec key) as [[_ ->]|[Hn _]]; [|contradiction].
  rewrite Hf. cbn [negb].
  destruct answer as [m|s t e|text].
  - cbn [snd status body]. split; [|split].
    + split; [intros E; discriminate E | intros (x & j & E & _); discriminate E].
    + now right.
    + intros x E. discriminate E.
  - cbn [snd status body]. split; [|split].
    + split; [intros E; discriminate E | intros (x & j & E & _); discriminate E].
    + now right.
    + intros x E. discriminate E.
  - destruct (JSON_parse (cleanText text)) as [j|] eqn:Ep;
      cbn [snd status body]; (split; [|split]).
    + split; [intros _; exists text, j; auto | reflexivity].
    + now left.
    + intros x [= <-] E. congruence.
    + split; [intros E; discriminate E|].
      intros (x & j & [= <-] & E & _). congruence.
    + now right.
    + intros x [= <-] _. reflexivity.
Qed.

End Answers.

End GenerativePathway.

(** A request with one file in memory, and a parser that only knows
    the empty object. *)
Lemma analyze_calls_model_witness :
  snd (Gemini.analyze string (fun s => if String.eqb s "{}" then Some s else None)
         None (Gemini.mkRequest ∅ (Some [Gemini.mkMemFile "p.pdf" "application/pdf" "%PDF"]))
         (Gemini.Candidate "{}"))
  = {| Gemini.status := 500;
       Gemini.body :=
         Gemini.Error _ "Server configuration error: GEMINI_API_KEY is missing." |}.
Proof.
  apply (analyze_calls_model
           (fun s => if String.eqb s "{}" then Some s else None) None
           (Gemini.mkRequest ∅ (Some [Gemini.mkMemFile "p.pdf" "application/pdf" "%PDF"]))
           (Gemini.Candidate "{}")).
  intros (k & H & _). discriminate H.
Defined.

Lemma analyze_sends_trimmed_key_witness :
  In (Gemini.Fetch (Gemini.endpoint ""))
     (fst (Gemini.analyze string (fun s => if String.eqb s "{}" then Some s else None)
             (Some "  ")
             (Gemini.mkRequest ∅ (Some [Gemini.mkMemFile "p.pdf" "application/pdf" "%PDF"]))
             (Gemini.Candidate "{}"))).
Proof.
  apply (analyze_sends_trimmed_key
           (fun s => if String.eqb s "{}" then Some s else None) "  "
           (Gemini.mkRequest ∅ (Some [Gemini.mkMemFile "p.pdf" "application/pdf" "%PDF"]))
           (Gemini.Candidate "{}")).
  - discriminate.
  - eexists _, _. reflexivity.
  - reflexivity.
Defined.

Lemma analyze_answer_witness :
  Gemini.status _
    (snd (Gemini.analyze string (fun s => if String.eqb s "{}" then Some s else None)
            (Some "key")
            (Gemini.mkRequest ∅ (Some [Gemini.mkMemFile "p.pdf" "application/pdf" "%PDF"]))
            (Gemini.Candidate ("```json" ++ ("{}" ++ "```")))))
  = 200.
Proof.
  apply (analyze_answer
           (fun s => if String.eqb s "{}" then Some s else None) (Some "key")
           (Gemini.mkRequest ∅ (Some [Gemini.mkMemFile "p.pdf" "application/pdf" "%PDF"]))
           (Gemini.Candidate ("```json" ++ ("{}" ++ "```")))).
  - exists "key". split; [reflexivity | discriminate].
  - eexists _, _. reflexivity.
  - eexists _, _. repeat split.
Defined.
